(** * Exchange lifecycle and credits ledger of reuse-api

    A shallow embedding of the trade-completion core:
    - [app/models/{credits,exchange,offer,user}.py]: the rows,
    - [app/crud/reward.py]: [get_user_balance], [add_credits_transaction],
      [claim_reward], [update_claim_status],
    - [app/api/v1/endpoints/exchanges.py]: [create_exchange],
      [accept_exchange], [confirm_exchange], [cancel_exchange].

    Conventions.
    - UUIDs are numbers ([N]); Python [int] is [Z]; [Optional[T]] is [option T];
      [datetime] values are [Z] clock readings.
    - PostgreSQL ENUM columns are inductive types.
    - A table keyed by its primary key is a [gmap]; a table that is only
      appended to and scanned (ledger, events, claims) is the list of its rows in
      insertion order.
    - Only the columns that the embedded functions read or assign are part of a
      row; the server-maintained audit stamps ([created_at]/[updated_at] of
      exchanges, offers, events, claims, rewards) are not.
    - The SQLAlchemy session is a pair of stores: what is committed and what the
      request currently sees. [db.commit()] publishes the second into the first,
      an exception leaves the request and [get_db] closes the session, which
      discards whatever was not committed. *)

From stdpp Require Import gmap strings list pretty sorting.

Open Scope Z_scope.

(** ** Enumerations *)

(** [exchange_status_enum], app/models/exchange.py *)
Inductive exchange_status :=
| pending | accepted | in_progress | completed | cancelled | disputed.

(** [exchange_event_type_enum], app/models/exchange.py *)
Inductive exchange_event_type :=
| ev_created | ev_accepted | ev_rejected | ev_check_in_buyer | ev_check_in_seller
| ev_completed | ev_cancelled | ev_disputed.

(** [offer_status_enum], app/models/offer.py *)
Inductive offer_status :=
| of_active | of_reserved | of_completed | of_cancelled | of_flagged.

(** [transaction_type_enum], app/models/credits.py *)
Inductive transaction_type :=
| initial_grant | exchange_payment | exchange_received | reward_claim
| admin_adjustment | refund.

(** [claim_status_enum], app/models/credits.py *)
Inductive claim_status :=
| cl_pending | cl_approved | cl_delivered | cl_rejected.

#[global] Instance exchange_status_eq_dec : EqDecision exchange_status.
Proof. solve_decision. Defined.
#[global] Instance exchange_event_type_eq_dec : EqDecision exchange_event_type.
Proof. solve_decision. Defined.
#[global] Instance offer_status_eq_dec : EqDecision offer_status.
Proof. solve_decision. Defined.
#[global] Instance transaction_type_eq_dec : EqDecision transaction_type.
Proof. solve_decision. Defined.
#[global] Instance claim_status_eq_dec : EqDecision claim_status.
Proof. solve_decision. Defined.

(** The text of a status inside an f-string. *)
Definition exchange_status_str (s : exchange_status) : string :=
  match s with
  | pending => "pending" | accepted => "accepted" | in_progress => "in_progress"
  | completed => "completed" | cancelled => "cancelled" | disputed => "disputed"
  end.

(** ** Rows *)

Abbreviation UUID := N (only parsing).

(** The two counters of [User] that the completion path increments. *)
Record User := mkUser {
  sustainability_points : Z;
  experience_points : Z
}.

Record Offer := mkOffer {
  o_user_id : UUID;
  o_title : string;
  o_status : offer_status;
  o_credits_value : Z
}.

Record Exchange := mkExchange {
  e_id : UUID;
  e_offer_id : UUID;
  e_buyer_id : UUID;
  e_seller_id : UUID;
  e_location_id : option Z;
  e_status : exchange_status;
  e_credits_amount : Z;
  e_buyer_confirmed : bool;
  e_seller_confirmed : bool;
  e_buyer_confirmed_at : option Z;
  e_seller_confirmed_at : option Z;
  e_scheduled_at : option Z;
  e_completed_at : option Z;
  e_cancellation_reason : option string;
  e_deleted_at : option Z
}.

Record ExchangeEvent := mkExchangeEvent {
  ev_exchange_id : UUID;
  ev_event_type : exchange_event_type;
  ev_by_user_id : UUID;
  ev_notes : option string
}.

(** [created_at] has [server_default=func.now()]: the database stamps the row
    with the clock of the transaction that inserts it. *)
Record CreditsLedger := mkCreditsLedger {
  l_user_id : UUID;
  l_transaction_type : transaction_type;
  l_amount : Z;
  l_balance_after : Z;
  l_reference_id : option UUID;
  l_description : option string;
  l_created_at : Z
}.

Record RewardsCatalog := mkRewardsCatalog {
  r_name : string;
  r_credits_cost : Z;
  r_stock_quantity : Z;
  r_is_active : bool;
  r_deleted_at : option Z
}.

Record RewardClaim := mkRewardClaim {
  c_id : Z;
  c_reward_id : Z;
  c_user_id : UUID;
  c_credits_spent : Z;
  c_status : claim_status;
  c_approved_at : option Z;
  c_delivered_at : option Z;
  c_notes : option string
}.

(** ** The store *)

Record DB := mkDB {
  users : gmap N User;
  offers : gmap N Offer;
  exchanges : gmap N Exchange;
  exchange_events : list ExchangeEvent;
  credits_ledger : list CreditsLedger;
  rewards_catalog : gmap Z RewardsCatalog;
  reward_claims : list RewardClaim
}.

Definition set_users (f : gmap N User → gmap N User) (db : DB) : DB :=
  mkDB (f (users db)) (offers db) (exchanges db) (exchange_events db)
       (credits_ledger db) (rewards_catalog db) (reward_claims db).
Definition set_offers (f : gmap N Offer → gmap N Offer) (db : DB) : DB :=
  mkDB (users db) (f (offers db)) (exchanges db) (exchange_events db)
       (credits_ledger db) (rewards_catalog db) (reward_claims db).
Definition set_exchanges (f : gmap N Exchange → gmap N Exchange) (db : DB) : DB :=
  mkDB (users db) (offers db) (f (exchanges db)) (exchange_events db)
       (credits_ledger db) (rewards_catalog db) (reward_claims db).
Definition set_exchange_events (f : list ExchangeEvent → list ExchangeEvent) (db : DB) : DB :=
  mkDB (users db) (offers db) (exchanges db) (f (exchange_events db))
       (credits_ledger db) (rewards_catalog db) (reward_claims db).
Definition set_credits_ledger (f : list CreditsLedger → list CreditsLedger) (db : DB) : DB :=
  mkDB (users db) (offers db) (exchanges db) (exchange_events db)
       (f (credits_ledger db)) (rewards_catalog db) (reward_claims db).
Definition set_rewards_catalog (f : gmap Z RewardsCatalog → gmap Z RewardsCatalog) (db : DB) : DB :=
  mkDB (users db) (offers db) (exchanges db) (exchange_events db)
       (credits_ledger db) (f (rewards_catalog db)) (reward_claims db).
Definition set_reward_claims (f : list RewardClaim → list RewardClaim) (db : DB) : DB :=
  mkDB (users db) (offers db) (exchanges db) (exchange_events db)
       (credits_ledger db) (rewards_catalog db) (f (reward_claims db)).

(** ** Exceptions and the session monad *)

Inductive Exception :=
| HTTPException (status_code : Z) (detail : string)
| ValueError (message : string)
| IntegrityError.

Inductive Result (A : Type) :=
| Ok (a : A)
| Raise (e : Exception).
Arguments Ok {A} a.
Arguments Raise {A} e.

(** [committed] is what other requests can see; [working] is what this
    request's session sees (loaded objects with their pending changes and
    pending inserts).  The session factory is built with [autoflush=False], so
    a query reads the database rather than pending inserts; none of the
    embedded functions queries a table it has already inserted into within the
    same transaction, hence reading [working] gives the same answers. *)
Record Session := mkSession {
  committed : DB;
  working : DB
}.

Definition M (A : Type) : Type := Session → Result A * Session.

#[global] Instance M_ret : MRet M := λ A a s, (Ok a, s).
#[global] Instance M_bind : MBind M := λ A B f m s,
  match m s with
  | (Ok a, s') => f a s'
  | (Raise e, s') => (Raise e, s')
  end.

Definition raise {A} (e : Exception) : M A := λ s, (Raise e, s).
Definition query {A} (q : DB → A) : M A := λ s, (Ok (q (working s)), s).
Definition modify (f : DB → DB) : M () := λ s,
  (Ok (), mkSession (committed s) (f (working s))).
(** [db.commit()] *)
Definition commit : M () := λ s, (Ok (), mkSession (working s) (working s)).
(** [if cond: raise e] *)
Definition raise_if (cond : bool) (e : Exception) : M () :=
  if cond then raise e else mret ().

(** One request: a fresh session on the store, the handler, then
    [db.close()], which keeps only what was committed. *)
Definition run {A} (m : M A) (db : DB) : Result A * DB :=
  let '(r, s) := m (mkSession db db) in (r, committed s).

(** ** app/crud/reward.py *)

(** [.order_by(desc(CreditsLedger.created_at))]: rows by decreasing
    [created_at].  SQL leaves the order of rows with equal stamps open; here
    they keep their table order. *)
Fixpoint insert_desc (e : CreditsLedger) (l : list CreditsLedger) : list CreditsLedger :=
  match l with
  | [] => [e]
  | x :: l' =>
      if bool_decide (l_created_at x <= l_created_at e)
      then e :: x :: l'
      else x :: insert_desc e l'
  end.

Definition order_by_desc_created_at (l : list CreditsLedger) : list CreditsLedger :=
  foldr insert_desc [] l.

(** [.filter(CreditsLedger.user_id == user_id)] *)
Definition filter_user_id (user_id : UUID) (l : list CreditsLedger) : list CreditsLedger :=
  filter (λ e, l_user_id e = user_id) l.

(** [get_user_balance], reward.py:210-228 *)
Definition get_user_balance (db : DB) (user_id : UUID) : Z :=
  let last_entry :=
    head (order_by_desc_created_at (filter_user_id user_id (credits_ledger db))) in
  match last_entry with
  | Some last_entry => l_balance_after last_entry
  | None => 0
  end.

Definition saldo_insuficiente (current_balance amount : Z) : string :=
  "Saldo insuficiente. Balance actual: " +:+ pretty current_balance
  +:+ ", intento: " +:+ pretty amount.

(** [add_credits_transaction], reward.py:252-296.  [now] is the clock of the
    transaction in which the row is inserted. *)
Definition add_credits_transaction
    (user_id : UUID) (transaction_type : transaction_type) (amount : Z)
    (reference_id : option UUID) (description : option string) (now : Z)
    : M CreditsLedger :=
  current_balance ← query (λ db, get_user_balance db user_id);
  let new_balance := current_balance + amount in
  raise_if (bool_decide (new_balance < 0))
    (ValueError (saldo_insuficiente current_balance amount));;
  let transaction :=
    mkCreditsLedger user_id transaction_type amount new_balance
                    reference_id description now in
  modify (set_credits_ledger (λ l, l ++ [transaction]));;
  commit;;
  mret transaction.

(** [CRUDBase.get] on [RewardsCatalog]: by primary key, soft-deleted rows
    filtered out. *)
Definition crud_reward_get (db : DB) (id : Z) : option RewardsCatalog :=
  match rewards_catalog db !! id with
  | Some r => if bool_decide (r_deleted_at r = None) then Some r else None
  | None => None
  end.

(** The next value of the serial primary key of [reward_claims]. *)
Definition nextval (ids : list Z) : Z := 1 + foldr Z.max 0 ids.

Definition creditos_insuficientes (cost balance : Z) : string :=
  "Créditos insuficientes. Necesitas " +:+ pretty cost
  +:+ ", tienes " +:+ pretty balance.

Definition decrement_stock (r : RewardsCatalog) : RewardsCatalog :=
  mkRewardsCatalog (r_name r) (r_credits_cost r) (r_stock_quantity r - 1)
                   (r_is_active r) (r_deleted_at r).

(** [claim_reward], reward.py:70-131 *)
Definition claim_reward (user_id : UUID) (reward_id : Z) (now : Z) : M RewardClaim :=
  reward ← query (λ db, crud_reward_get db reward_id);
  match reward with
  | None => raise (ValueError "Recompensa no disponible")
  | Some reward =>
      raise_if (negb (r_is_active reward)) (ValueError "Recompensa no disponible");;
      raise_if (bool_decide (r_stock_quantity reward <= 0))
        (ValueError "Recompensa sin stock disponible");;
      user ← query (λ db, users db !! user_id);
      raise_if (bool_decide (user = None)) (ValueError "Usuario no encontrado");;
      balance ← query (λ db, get_user_balance db user_id);
      raise_if (bool_decide (balance < r_credits_cost reward))
        (ValueError (creditos_insuficientes (r_credits_cost reward) balance));;
      id ← query (λ db, nextval (c_id <$> reward_claims db));
      let claim :=
        mkRewardClaim id reward_id user_id (r_credits_cost reward) cl_pending
                      None None None in
      modify (set_reward_claims (λ l, l ++ [claim]));;
      modify (set_rewards_catalog (<[reward_id := decrement_stock reward]>));;
      let ledger_entry :=
        mkCreditsLedger user_id reward_claim (- r_credits_cost reward)
                        (balance - r_credits_cost reward)
                        None
                        (Some ("Reclamación de recompensa: " +:+ r_name reward))
                        now in
      modify (set_credits_ledger (λ l, l ++ [ledger_entry]));;
      commit;;
      mret claim
  end.

(** Python truthiness of [notes: Optional[str]] *)
Definition truthy (notes : option string) : bool :=
  match notes with
  | Some s => negb (bool_decide (s = ""))
  | None => false
  end.

Definition with_status (status : claim_status) (c : RewardClaim) : RewardClaim :=
  mkRewardClaim (c_id c) (c_reward_id c) (c_user_id c) (c_credits_spent c) status
                (c_approved_at c) (c_delivered_at c) (c_notes c).
Definition with_notes (notes : option string) (c : RewardClaim) : RewardClaim :=
  mkRewardClaim (c_id c) (c_reward_id c) (c_user_id c) (c_credits_spent c) (c_status c)
                (c_approved_at c) (c_delivered_at c) notes.
Definition with_approved_at (t : option Z) (c : RewardClaim) : RewardClaim :=
  mkRewardClaim (c_id c) (c_reward_id c) (c_user_id c) (c_credits_spent c) (c_status c)
                t (c_delivered_at c) (c_notes c).
Definition with_delivered_at (t : option Z) (c : RewardClaim) : RewardClaim :=
  mkRewardClaim (c_id c) (c_reward_id c) (c_user_id c) (c_credits_spent c) (c_status c)
                (c_approved_at c) t (c_notes c).

(** The UPDATE that a commit issues for a changed claim: the row with the
    claim's primary key takes the new column values. *)
Definition update_claim_row (claim : RewardClaim) (l : list RewardClaim) : list RewardClaim :=
  (λ c, if bool_decide (c_id c = c_id claim) then claim else c) <$> l.

(** [update_claim_status], reward.py:178-208.  [utcnow] is the reading of
    [datetime.utcnow()]. *)
Definition update_claim_status
    (claim_id : Z) (status : claim_status) (notes : option string) (utcnow : Z)
    : M (option RewardClaim) :=
  claim ← query (λ db, head (filter (λ c, c_id c = claim_id) (reward_claims db)));
  match claim with
  | None => mret None
  | Some claim =>
      let claim := with_status status claim in
      let claim := if truthy notes then with_notes notes claim else claim in
      let claim :=
        if bool_decide (status = cl_approved) then with_approved_at (Some utcnow) claim
        else if bool_decide (status = cl_delivered) then with_delivered_at (Some utcnow) claim
        else claim in
      modify (set_reward_claims (update_claim_row claim));;
      commit;;
      mret (Some claim)
  end.

(** ** app/api/v1/endpoints/exchanges.py *)

(** Request bodies, app/schemas/exchange.py *)
Record ExchangeCreate := mkExchangeCreate {
  ec_offer_id : UUID;
  ec_location_id : option Z;
  ec_scheduled_at : option Z;
  ec_notes : option string
}.

Record ExchangeUpdate := mkExchangeUpdate {
  eu_location_id : option Z;
  eu_scheduled_at : option Z;
  eu_cancellation_reason : option string
}.

Record ExchangeConfirm := mkExchangeConfirm {
  cf_notes : option string
}.

(** [CRUDBase.get] on [Exchange]: by primary key, soft-deleted rows filtered
    out. *)
Definition crud_exchange_get (db : DB) (id : UUID) : option Exchange :=
  match exchanges db !! id with
  | Some e => if bool_decide (e_deleted_at e = None) then Some e else None
  | None => None
  end.

(** [db.add(new_exchange)] with an explicit primary key: the INSERT is refused
    when the key is taken. *)
Definition db_add_exchange (e : Exchange) : M () :=
  existing ← query (λ db, exchanges db !! e_id e);
  match existing with
  | Some _ => raise IntegrityError
  | None => modify (set_exchanges (<[e_id e := e]>))
  end.

(** [db.add(event)] *)
Definition db_add_event (ev : ExchangeEvent) : M () :=
  modify (set_exchange_events (λ l, l ++ [ev])).

Definition offer_with_status (s : offer_status) (o : Offer) : Offer :=
  mkOffer (o_user_id o) (o_title o) s (o_credits_value o).

(** Assignments to a loaded [Exchange] object. *)
Definition ex_with_status (s : exchange_status) (e : Exchange) : Exchange :=
  mkExchange (e_id e) (e_offer_id e) (e_buyer_id e) (e_seller_id e) (e_location_id e)
    s (e_credits_amount e) (e_buyer_confirmed e) (e_seller_confirmed e)
    (e_buyer_confirmed_at e) (e_seller_confirmed_at e) (e_scheduled_at e)
    (e_completed_at e) (e_cancellation_reason e) (e_deleted_at e).
Definition ex_confirm_buyer (t : Z) (e : Exchange) : Exchange :=
  mkExchange (e_id e) (e_offer_id e) (e_buyer_id e) (e_seller_id e) (e_location_id e)
    (e_status e) (e_credits_amount e) true (e_seller_confirmed e)
    (Some t) (e_seller_confirmed_at e) (e_scheduled_at e)
    (e_completed_at e) (e_cancellation_reason e) (e_deleted_at e).
Definition ex_confirm_seller (t : Z) (e : Exchange) : Exchange :=
  mkExchange (e_id e) (e_offer_id e) (e_buyer_id e) (e_seller_id e) (e_location_id e)
    (e_status e) (e_credits_amount e) (e_buyer_confirmed e) true
    (e_buyer_confirmed_at e) (Some t) (e_scheduled_at e)
    (e_completed_at e) (e_cancellation_reason e) (e_deleted_at e).
Definition ex_with_completed_at (t : Z) (e : Exchange) : Exchange :=
  mkExchange (e_id e) (e_offer_id e) (e_buyer_id e) (e_seller_id e) (e_location_id e)
    (e_status e) (e_credits_amount e) (e_buyer_confirmed e) (e_seller_confirmed e)
    (e_buyer_confirmed_at e) (e_seller_confirmed_at e) (e_scheduled_at e)
    (Some t) (e_cancellation_reason e) (e_deleted_at e).
Definition ex_with_cancellation_reason (r : option string) (e : Exchange) : Exchange :=
  mkExchange (e_id e) (e_offer_id e) (e_buyer_id e) (e_seller_id e) (e_location_id e)
    (e_status e) (e_credits_amount e) (e_buyer_confirmed e) (e_seller_confirmed e)
    (e_buyer_confirmed_at e) (e_seller_confirmed_at e) (e_scheduled_at e)
    (e_completed_at e) r (e_deleted_at e).

(** The changed object as the session holds it until the next commit. *)
Definition save_exchange (id : UUID) (e : Exchange) : M () :=
  modify (set_exchanges (<[id := e]>)).

(** [create_exchange], exchanges.py:143-231.  [exchange_id] is the value of
    [uuid_module.uuid4()]. *)
Definition create_exchange
    (exchange_in : ExchangeCreate) (current_user : UUID) (exchange_id : UUID)
    : M Exchange :=
  offer ← query (λ db, offers db !! ec_offer_id exchange_in);
  match offer with
  | None => raise (HTTPException 404 "Oferta no encontrada")
  | Some offer =>
      raise_if (bool_decide (o_status offer ≠ of_active))
        (HTTPException 400 "La oferta no está disponible para intercambio");;
      raise_if (bool_decide (o_user_id offer = current_user))
        (HTTPException 400 "No puedes crear un intercambio con tu propia oferta");;
      let new_exchange :=
        mkExchange exchange_id (ec_offer_id exchange_in) current_user (o_user_id offer)
          (ec_location_id exchange_in) pending (o_credits_value offer)
          false false None None (ec_scheduled_at exchange_in) None None None in
      db_add_exchange new_exchange;;
      db_add_event
        (mkExchangeEvent exchange_id ev_created current_user (ec_notes exchange_in));;
      modify (set_offers (<[ec_offer_id exchange_in := offer_with_status of_reserved offer]>));;
      commit;;
      mret new_exchange
  end.

Definition no_se_puede (verbo : string) (s : exchange_status) : string :=
  "No se puede " +:+ verbo +:+ " un intercambio en estado '"
  +:+ exchange_status_str s +:+ "'".

(** [accept_exchange], exchanges.py:234-301 *)
Definition accept_exchange (exchange_id : UUID) (current_user : UUID) : M string :=
  exchange ← query (λ db, crud_exchange_get db exchange_id);
  match exchange with
  | None => raise (HTTPException 404 "Intercambio no encontrado")
  | Some exchange =>
      raise_if (bool_decide (e_seller_id exchange ≠ current_user))
        (HTTPException 403 "Solo el vendedor puede aceptar el intercambio");;
      raise_if (bool_decide (e_status exchange ≠ pending))
        (HTTPException 400 (no_se_puede "aceptar" (e_status exchange)));;
      let exchange := ex_with_status accepted exchange in
      save_exchange exchange_id exchange;;
      db_add_event (mkExchangeEvent exchange_id ev_accepted current_user None);;
      commit;;
      mret "Intercambio aceptado exitosamente"
  end.

(** [offer.title if offer else 'N/A'] *)
Definition title_or_na (offer : option Offer) : string :=
  match offer with Some o => o_title o | None => "N/A" end.

(** [sustainability_points += 10; experience_points += 15] *)
Definition grant_points (u : User) : User :=
  mkUser (sustainability_points u + 10) (experience_points u + 15).

(** [confirm_exchange], exchanges.py:304-458.  [utcnow] is the reading of
    [datetime.utcnow()]; [txn_now] is the clock of the transaction the request
    starts in, [txn_now'] the clock of the transaction that begins after the
    commit made by the buyer's [add_credits_transaction]. *)
Definition confirm_exchange
    (exchange_id : UUID) (confirm_data : option ExchangeConfirm) (current_user : UUID)
    (utcnow txn_now txn_now' : Z) : M string :=
  exchange ← query (λ db, crud_exchange_get db exchange_id);
  match exchange with
  | None => raise (HTTPException 404 "Intercambio no encontrado")
  | Some exchange =>
      raise_if (bool_decide (e_buyer_id exchange ≠ current_user)
                && bool_decide (e_seller_id exchange ≠ current_user))
        (HTTPException 403 "No tienes acceso a este intercambio");;
      raise_if (negb (bool_decide (e_status exchange = accepted)
                      || bool_decide (e_status exchange = in_progress)))
        (HTTPException 400 (no_se_puede "confirmar" (e_status exchange)));;
      let is_buyer := bool_decide (e_buyer_id exchange = current_user) in
      let event_type := if is_buyer then ev_check_in_buyer else ev_check_in_seller in
      exchange ←
        (if is_buyer then
           raise_if (e_buyer_confirmed exchange)
             (HTTPException 400 "Ya has confirmado este intercambio");;
           mret (ex_confirm_buyer utcnow exchange)
         else
           raise_if (e_seller_confirmed exchange)
             (HTTPException 400 "Ya has confirmado este intercambio");;
           mret (ex_confirm_seller utcnow exchange));
      let exchange :=
        if bool_decide (e_status exchange = accepted)
        then ex_with_status in_progress exchange else exchange in
      save_exchange exchange_id exchange;;
      db_add_event
        (mkExchangeEvent exchange_id event_type current_user
           (match confirm_data with Some d => cf_notes d | None => None end));;
      exchange ←
        (if e_buyer_confirmed exchange && e_seller_confirmed exchange then
           let exchange := ex_with_completed_at utcnow (ex_with_status completed exchange) in
           save_exchange exchange_id exchange;;
           db_add_event (mkExchangeEvent exchange_id ev_completed current_user None);;
           offer ← query (λ db, offers db !! e_offer_id exchange);
           match offer with
           | Some o =>
               modify (set_offers (<[e_offer_id exchange := offer_with_status of_completed o]>))
           | None => mret ()
           end;;
           add_credits_transaction (e_buyer_id exchange) exchange_payment
             (- e_credits_amount exchange) (Some exchange_id)
             (Some ("Pago por intercambio: " +:+ title_or_na offer)) txn_now;;
           add_credits_transaction (e_seller_id exchange) exchange_received
             (e_credits_amount exchange) (Some exchange_id)
             (Some ("Recibo por intercambio: " +:+ title_or_na offer)) txn_now';;
           modify (set_users (alter grant_points (e_buyer_id exchange)));;
           modify (set_users (alter grant_points (e_seller_id exchange)));;
           mret exchange
         else mret exchange);
      commit;;
      mret (if bool_decide (e_status exchange = completed)
            then "Intercambio completado exitosamente"
            else "Confirmación registrada")
  end.

(** [cancel_exchange], exchanges.py:461-539 *)
Definition cancel_exchange
    (exchange_id : UUID) (cancellation_data : ExchangeUpdate) (current_user : UUID)
    : M string :=
  exchange ← query (λ db, crud_exchange_get db exchange_id);
  match exchange with
  | None => raise (HTTPException 404 "Intercambio no encontrado")
  | Some exchange =>
      raise_if (bool_decide (e_buyer_id exchange ≠ current_user)
                && bool_decide (e_seller_id exchange ≠ current_user))
        (HTTPException 403 "No tienes acceso a este intercambio");;
      raise_if (bool_decide (e_status exchange = completed))
        (HTTPException 400 "No se puede cancelar un intercambio completado");;
      let exchange :=
        ex_with_cancellation_reason (eu_cancellation_reason cancellation_data)
          (ex_with_status cancelled exchange) in
      save_exchange exchange_id exchange;;
      db_add_event
        (mkExchangeEvent exchange_id ev_cancelled current_user
           (eu_cancellation_reason cancellation_data));;
      offer ← query (λ db, offers db !! e_offer_id exchange);
      match offer with
      | Some o =>
          modify (set_offers (<[e_offer_id exchange := offer_with_status of_active o]>))
      | None => mret ()
      end;;
      commit;;
      mret "Intercambio cancelado exitosamente"
  end.

(** ** The system as a whole *)

(** [SUM(amount)] over the rows of one user. *)
Definition ledger_sum (db : DB) (user_id : UUID) : Z :=
  foldr (λ e acc, l_amount e + acc) 0 (filter_user_id user_id (credits_ledger db)).

(** The calls that the HTTP layer and the administration make into the core,
    with what the environment supplies to each (generated UUID, clock
    readings). *)
Inductive Request :=
| CreateExchange (exchange_in : ExchangeCreate) (current_user exchange_id : UUID)
| AcceptExchange (exchange_id current_user : UUID)
| ConfirmExchange (exchange_id : UUID) (confirm_data : option ExchangeConfirm)
    (current_user : UUID) (utcnow txn_now txn_now' : Z)
| CancelExchange (exchange_id : UUID) (cancellation_data : ExchangeUpdate)
    (current_user : UUID)
| ClaimReward (user_id : UUID) (reward_id : Z) (now : Z)
| AddCreditsTransaction (user_id : UUID) (transaction_type : transaction_type)
    (amount : Z) (reference_id : option UUID) (description : option string) (now : Z)
| UpdateClaimStatus (claim_id : Z) (status : claim_status) (notes : option string)
    (utcnow : Z).

(** The store after the request, whether it succeeded or raised. *)
Definition handle (req : Request) (db : DB) : DB :=
  match req with
  | CreateExchange exchange_in current_user exchange_id =>
      (run (create_exchange exchange_in current_user exchange_id) db).2
  | AcceptExchange exchange_id current_user =>
      (run (accept_exchange exchange_id current_user) db).2
  | ConfirmExchange exchange_id confirm_data current_user utcnow txn_now txn_now' =>
      (run (confirm_exchange exchange_id confirm_data current_user
              utcnow txn_now txn_now') db).2
  | CancelExchange exchange_id cancellation_data current_user =>
      (run (cancel_exchange exchange_id cancellation_data current_user) db).2
  | ClaimReward user_id reward_id now =>
      (run (claim_reward user_id reward_id now) db).2
  | AddCreditsTransaction user_id transaction_type amount reference_id description now =>
      (run (add_credits_transaction user_id transaction_type amount
              reference_id description now) db).2
  | UpdateClaimStatus claim_id status notes utcnow =>
      (run (update_claim_status claim_id status notes utcnow) db).2
  end.

(** The database clock [t] is later than every stamp in the ledger. *)
Definition later_than_ledger (t : Z) (db : DB) : Prop :=
  Forall (λ e, l_created_at e < t) (credits_ledger db).

(** Requests are served one after the other and the database clock moves
    forward between two transactions. *)
Definition clock_ok (req : Request) (db : DB) : Prop :=
  match req with
  | ConfirmExchange _ _ _ _ txn_now txn_now' =>
      later_than_ledger txn_now db ∧ txn_now < txn_now'
  | ClaimReward _ _ now => later_than_ledger now db
  | AddCreditsTransaction _ _ _ _ _ now => later_than_ledger now db
  | _ => True
  end.

(** A store in which nobody has been credited or debited yet. *)
Definition initial (db : DB) : Prop := credits_ledger db = [].

Inductive reachable : DB → Prop :=
| reachable_initial db : initial db → reachable db
| reachable_handle db req :
    reachable db → clock_ok req db → reachable (handle req db).

(** ** Specification-side definitions *)

(** The balance as the specification words it: the [balance_after] of the
    user's most recent entry by sequence, that is, of the row the user received
    last, whatever its time stamp. *)
Definition balance_by_sequence (db : DB) (user_id : UUID) : Z :=
  match last (filter_user_id user_id (credits_ledger db)) with
  | Some e => l_balance_after e
  | None => 0
  end.

(** The edges of the claim life cycle as the specification lists them. *)
Definition valid_claim_edge (from to : claim_status) : bool :=
  match from, to with
  | cl_pending, cl_approved | cl_pending, cl_rejected | cl_approved, cl_delivered => true
  | _, _ => false
  end.

(** ** Derived notions used in the statements *)

(** The caller is one of the two parties. *)
Definition participant (ex : Exchange) (current_user : UUID) : Prop :=
  e_buyer_id ex = current_user ∨ e_seller_id ex = current_user.

(** The other party has already confirmed, so a confirmation by
    [current_user] makes both flags true. *)
Definition completes (ex : Exchange) (current_user : UUID) : bool :=
  if bool_decide (e_buyer_id ex = current_user)
  then e_seller_confirmed ex else e_buyer_confirmed ex.

(** The caller's own flag. *)
Definition already_confirmed (ex : Exchange) (current_user : UUID) : bool :=
  if bool_decide (e_buyer_id ex = current_user)
  then e_buyer_confirmed ex else e_seller_confirmed ex.

(** The row after the caller's flag and stamp are set and [accepted] has
    advanced to [in_progress]. *)
Definition confirmed_by (current_user : UUID) (utcnow : Z) (ex : Exchange) : Exchange :=
  let ex := if bool_decide (e_buyer_id ex = current_user)
            then ex_confirm_buyer utcnow ex else ex_confirm_seller utcnow ex in
  if bool_decide (e_status ex = accepted) then ex_with_status in_progress ex else ex.

(** The check-in event of a confirmation. *)
Definition check_in_event (exchange_id : UUID) (confirm_data : option ExchangeConfirm)
    (current_user : UUID) (ex : Exchange) : ExchangeEvent :=
  mkExchangeEvent exchange_id
    (if bool_decide (e_buyer_id ex = current_user)
     then ev_check_in_buyer else ev_check_in_seller)
    current_user
    (match confirm_data with Some d => cf_notes d | None => None end).

(** The ledger agrees with itself for every user: the balance read from the
    latest row is the sum of the user's amounts, and it is not negative. *)
Definition ledger_consistent (db : DB) : Prop :=
  ∀ user_id,
    get_user_balance db user_id = ledger_sum db user_id
    ∧ 0 <= get_user_balance db user_id.

(** [offer.status = s] when the offer row exists. *)
Definition set_offer_status (id : UUID) (s : offer_status) (db : DB) : DB :=
  match offers db !! id with
  | Some o => set_offers (<[id := offer_with_status s o]>) db
  | None => db
  end.

(** ** Sample data *)

Module Sample.

Definition buyer : UUID := 1%N.
Definition seller : UUID := 2%N.
Definition the_offer : UUID := 7%N.
Definition the_exchange : UUID := 9%N.

(** Two users, an offer of 50 credits owned by the seller, a reward of 30
    credits with one unit in stock; no movement of credits yet. *)
Definition db_init : DB :=
  mkDB {[ buyer := mkUser 0 0; seller := mkUser 0 0 ]}
       {[ the_offer := mkOffer seller "Libro" of_active 50 ]}
       ∅ [] []
       {[ 1 := mkRewardsCatalog "Taza" 30 1 true None ]}
       [].

(** The buyer is granted 100 credits. *)
Definition db0 : DB :=
  handle (AddCreditsTransaction buyer initial_grant 100 None None 1) db_init.

Definition proposal : ExchangeCreate := mkExchangeCreate the_offer None None None.

Definition db_pending : DB :=
  handle (CreateExchange proposal buyer the_exchange) db0.
Definition db_accepted : DB :=
  handle (AcceptExchange the_exchange seller) db_pending.
Definition db_in_progress : DB :=
  handle (ConfirmExchange the_exchange None buyer 10 11 12) db_accepted.
Definition db_completed : DB :=
  handle (ConfirmExchange the_exchange None seller 20 21 22) db_in_progress.

(** The buyer spends 70 of the 100 credits on other things before the seller
    confirms. *)
Definition db_in_progress_poor : DB :=
  handle (AddCreditsTransaction buyer admin_adjustment (-70) None None 15) db_in_progress.

(** The exchange row once the buyer has confirmed. *)
Definition ex_in_progress : Exchange :=
  mkExchange the_exchange the_offer buyer seller None in_progress 50
             true false (Some 10) None None None None None.

(** The exchange row right after the proposal. *)
Definition ex_pending : Exchange :=
  mkExchange the_exchange the_offer buyer seller None pending 50
             false false None None None None None None.

(** The buyer claims the reward, an administrator approves and delivers it. *)
Definition db_claimed : DB := handle (ClaimReward buyer 1 5) db0.
Definition db_approved : DB := handle (UpdateClaimStatus 1 cl_approved None 30) db_claimed.
Definition db_delivered : DB := handle (UpdateClaimStatus 1 cl_delivered None 40) db_approved.

(** Two credits for the buyer, the second stamped earlier than the first. *)
Definition db_out_of_order : DB :=
  handle (AddCreditsTransaction buyer admin_adjustment 5 None None 10)
    (handle (AddCreditsTransaction buyer admin_adjustment 10 None None 20) db_init).

End Sample.

(** ** Further functions of the same modules *)

(** [Exchange.is_confirmed], models/exchange.py:59-61 *)
Definition is_confirmed (e : Exchange) : bool :=
  e_buyer_confirmed e && e_seller_confirmed e.

(** [.limit(limit)]; the callers pass positive constants (a negative LIMIT
    is refused by the database). *)
Definition sql_limit {A} (limit : Z) (l : list A) : list A :=
  take (Z.to_nat limit) l.

(** [get_user_transactions], reward.py:230-250 *)
Definition get_user_transactions (db : DB) (user_id : UUID) (limit : Z)
    : list CreditsLedger :=
  sql_limit limit
    (order_by_desc_created_at (filter_user_id user_id (credits_ledger db))).

(** [.order_by(RewardsCatalog.credits_cost)] *)
Definition by_credits_cost (a b : Z * RewardsCatalog) : Prop :=
  r_credits_cost a.2 <= r_credits_cost b.2.

#[global] Instance by_credits_cost_dec a b : Decision (by_credits_cost a b).
Proof. unfold by_credits_cost. apply _. Defined.

(** [get_active_rewards], reward.py:18-40: the catalogue rows, each with its
    id, that are active and in stock, cheapest first.  The query does not look
    at [deleted_at]. *)
Definition get_active_rewards (db : DB) (limit : Z) : list (Z * RewardsCatalog) :=
  sql_limit limit
    (merge_sort by_credits_cost
       (filter (λ kv : Z * RewardsCatalog,
                  r_is_active kv.2 = true ∧ r_stock_quantity kv.2 > 0)
               (map_to_list (rewards_catalog db)))).

(** [func.sum(...)] with [.scalar()]: NULL when no row qualifies. *)
Definition sql_sum (l : list Z) : option Z :=
  match l with
  | [] => None
  | _ => Some (foldr Z.add 0 l)
  end.

(** Python [x or 0] on an optional number. *)
Definition or_zero (x : option Z) : Z :=
  match x with
  | Some v => if bool_decide (v = 0) then 0 else v
  | None => 0
  end.

(** [CreditsBalance], schemas/reward.py:101-109 *)
Record CreditsBalance := mkCreditsBalance {
  current_balance : Z;
  total_earned : Z;
  total_spent : Z;
  recent_transactions : list CreditsLedger
}.

(** [get_my_credits_balance], endpoints/rewards.py:114-162 *)
Definition get_my_credits_balance (db : DB) (current_user : UUID) : CreditsBalance :=
  let current_balance := get_user_balance db current_user in
  let total_earned :=
    or_zero (sql_sum (l_amount <$>
      filter (λ e, l_user_id e = current_user ∧ l_amount e > 0) (credits_ledger db))) in
  let total_spent :=
    Z.abs (or_zero (sql_sum (l_amount <$>
      filter (λ e, l_user_id e = current_user ∧ l_amount e < 0) (credits_ledger db)))) in
  let recent_transactions := get_user_transactions db current_user 10 in
  mkCreditsBalance current_balance total_earned total_spent recent_transactions.

(** [try: ... except ValueError as e: raise HTTPException(400, str(e))] *)
Definition except_ValueError {A} (m : M A) : M A := λ s,
  match m s with
  | (Raise (ValueError message), s') => (Raise (HTTPException 400 message), s')
  | r => r
  end.

(** [claim_reward] of endpoints/rewards.py:57-85; the response carries the
    claim and the reward row read back after the commit. *)
Definition claim_reward_endpoint (reward_id : Z) (current_user : UUID) (now : Z)
    : M (RewardClaim * option RewardsCatalog) :=
  except_ValueError
    (claim ← claim_reward current_user reward_id now;
     reward ← query (λ db, crud_reward_get db reward_id);
     mret (claim, reward)).

(** [update_claim_status_admin], endpoints/rewards.py:218-249 *)
Definition update_claim_status_admin
    (claim_id : Z) (status : claim_status) (notes : option string) (utcnow : Z)
    : M (RewardClaim * option RewardsCatalog) :=
  updated_claim ← update_claim_status claim_id status notes utcnow;
  match updated_claim with
  | None => raise (HTTPException 404 "Reclamación no encontrada")
  | Some updated_claim =>
      reward ← query (λ db, crud_reward_get db (c_reward_id updated_claim));
      mret (updated_claim, reward)
  end.

Definition ex_with_deleted_at (t : option Z) (e : Exchange) : Exchange :=
  mkExchange (e_id e) (e_offer_id e) (e_buyer_id e) (e_seller_id e) (e_location_id e)
    (e_status e) (e_credits_amount e) (e_buyer_confirmed e) (e_seller_confirmed e)
    (e_buyer_confirmed_at e) (e_seller_confirmed_at e) (e_scheduled_at e)
    (e_completed_at e) (e_cancellation_reason e) t.

(** [CRUDExchange.soft_delete], crud/exchange.py:154-171 *)
Definition crud_exchange_soft_delete (id : UUID) (utcnow : Z) : M (option Exchange) :=
  exchange ← query (λ db, crud_exchange_get db id);
  match exchange with
  | Some exchange =>
      let exchange := ex_with_deleted_at (Some utcnow) exchange in
      save_exchange id exchange;;
      commit;;
      mret (Some exchange)
  | None => mret None
  end.

(** [CRUDBase.restore] on [Exchange], crud/base.py:201-220: the row is looked
    up with [include_deleted=True]. *)
Definition crud_exchange_restore (id : UUID) : M (option Exchange) :=
  obj ← query (λ db, exchanges db !! id);
  match obj with
  | Some obj =>
      if bool_decide (e_deleted_at obj ≠ None) then
        let obj := ex_with_deleted_at None obj in
        save_exchange id obj;;
        commit;;
        mret (Some obj)
      else mret (Some obj)
  | None => mret None
  end.

(** [CRUDExchange.confirm_by_user], crud/exchange.py:107-137.  The [Exchange]
    object is written back under its primary key. *)
Definition confirm_by_user (exchange : Exchange) (user_id : UUID) (utcnow : Z)
    : M Exchange :=
  let exchange :=
    if bool_decide (e_buyer_id exchange = user_id)
    then ex_confirm_buyer utcnow exchange
    else if bool_decide (e_seller_id exchange = user_id)
    then ex_confirm_seller utcnow exchange
    else exchange in
  let exchange :=
    if e_buyer_confirmed exchange && e_seller_confirmed exchange
    then ex_with_completed_at utcnow (ex_with_status completed exchange)
    else exchange in
  save_exchange (e_id exchange) exchange;;
  commit;;
  mret exchange.


(** ** Notions used in the further statements *)

(** The sum of all amounts in the ledger, over all users. *)
Definition ledger_total (db : DB) : Z :=
  foldr (λ e acc, l_amount e + acc) 0 (credits_ledger db).



(** The exception a request ends with, if any. *)
Definition raised {A} (r : Result A) : option Exception :=
  match r with
  | Raise e => Some e
  | Ok _ => None
  end.

Definition error_of (req : Request) (db : DB) : option Exception :=
  match req with
  | CreateExchange exchange_in current_user exchange_id =>
      raised (run (create_exchange exchange_in current_user exchange_id) db).1
  | AcceptExchange exchange_id current_user =>
      raised (run (accept_exchange exchange_id current_user) db).1
  | ConfirmExchange exchange_id confirm_data current_user utcnow txn_now txn_now' =>
      raised (run (confirm_exchange exchange_id confirm_data current_user
                     utcnow txn_now txn_now') db).1
  | CancelExchange exchange_id cancellation_data current_user =>
      raised (run (cancel_exchange exchange_id cancellation_data current_user) db).1
  | ClaimReward user_id reward_id now =>
      raised (run (claim_reward user_id reward_id now) db).1
  | AddCreditsTransaction user_id transaction_type amount reference_id description now =>
      raised (run (add_credits_transaction user_id transaction_type amount
                     reference_id description now) db).1
  | UpdateClaimStatus claim_id status notes utcnow =>
      raised (run (update_claim_status claim_id status notes utcnow) db).1
  end.

(** The exchange a request addresses. *)
Definition target (req : Request) : option UUID :=
  match req with
  | CreateExchange _ _ exchange_id => Some exchange_id
  | AcceptExchange exchange_id _ => Some exchange_id
  | ConfirmExchange exchange_id _ _ _ _ _ => Some exchange_id
  | CancelExchange exchange_id _ _ => Some exchange_id
  | _ => None
  end.

(** What one request can do to an exchange row. *)
Inductive exchange_step : Exchange → Exchange → Prop :=
| step_accept ex :
    e_status ex = pending →
    exchange_step ex (ex_with_status accepted ex)
| step_confirm ex current_user utcnow :
    participant ex current_user →
    e_status ex = accepted ∨ e_status ex = in_progress →
    already_confirmed ex current_user = false →
    completes ex current_user = false →
    exchange_step ex (confirmed_by current_user utcnow ex)
| step_complete ex current_user utcnow :
    participant ex current_user →
    e_status ex = accepted ∨ e_status ex = in_progress →
    already_confirmed ex current_user = false →
    completes ex current_user = true →
    exchange_step ex
      (ex_with_completed_at utcnow
         (ex_with_status completed (confirmed_by current_user utcnow ex)))
| step_cancel ex reason :
    e_status ex ≠ completed →
    exchange_step ex (ex_with_cancellation_reason reason (ex_with_status cancelled ex)).

(** The dual-confirmation discipline on one row: flags and stamps go
    together; no flag before the exchange is in progress, exactly one while it
    is, both once it is completed and only then; [completed_at] marks
    completed rows only. *)
Definition exchange_coherent (e : Exchange) : Prop :=
  (e_buyer_confirmed e = true ↔ e_buyer_confirmed_at e ≠ None)
  ∧ (e_seller_confirmed e = true ↔ e_seller_confirmed_at e ≠ None)
  ∧ (is_confirmed e = true ↔ e_status e = completed)
  ∧ (e_completed_at e ≠ None ↔ e_status e = completed)
  ∧ (e_status e = pending ∨ e_status e = accepted →
     e_buyer_confirmed e = false ∧ e_seller_confirmed e = false)
  ∧ (e_status e = in_progress →
     e_buyer_confirmed e = true ∨ e_seller_confirmed e = true).

Definition exchanges_coherent (db : DB) : Prop :=
  ∀ id e, exchanges db !! id = Some e → exchange_coherent e.

(** * Properties *)

(** ** Running a handler *)

Ltac unfold_M :=
  unfold run, db_add_event, db_add_exchange, save_exchange, raise_if in *;
  unfold mbind, M_bind, mret, M_ret, raise, query, modify, commit in *.

Lemma add_credits_transaction_unfold user_id ttype amount ref desc now s :
  add_credits_transaction user_id ttype amount ref desc now s =
  let current_balance := get_user_balance (working s) user_id in
  if bool_decide (current_balance + amount < 0)
  then (Raise (ValueError (saldo_insuficiente current_balance amount)), s)
  else
    let transaction :=
      mkCreditsLedger user_id ttype amount (current_balance + amount) ref desc now in
    let db' := set_credits_ledger (λ l, l ++ [transaction]) (working s) in
    (Ok transaction, mkSession db' db').
Proof.
  unfold add_credits_transaction. unfold_M. simpl.
  case_bool_decide; reflexivity.
Qed.

Lemma run_add_credits_transaction db user_id ttype amount ref desc now :
  run (add_credits_transaction user_id ttype amount ref desc now) db =
  let current_balance := get_user_balance db user_id in
  if bool_decide (current_balance + amount < 0)
  then (Raise (ValueError (saldo_insuficiente current_balance amount)), db)
  else
    let transaction :=
      mkCreditsLedger user_id ttype amount (current_balance + amount) ref desc now in
    (Ok transaction, set_credits_ledger (λ l, l ++ [transaction]) db).
Proof.
  unfold run. rewrite add_credits_transaction_unfold. simpl.
  case_bool_decide; reflexivity.
Qed.

Lemma run_claim_reward db user_id reward_id now :
  run (claim_reward user_id reward_id now) db =
  match crud_reward_get db reward_id with
  | None => (Raise (ValueError "Recompensa no disponible"), db)
  | Some reward =>
    if negb (r_is_active reward)
    then (Raise (ValueError "Recompensa no disponible"), db)
    else if bool_decide (r_stock_quantity reward <= 0)
    then (Raise (ValueError "Recompensa sin stock disponible"), db)
    else if bool_decide (users db !! user_id = None)
    then (Raise (ValueError "Usuario no encontrado"), db)
    else
      let balance := get_user_balance db user_id in
      if bool_decide (balance < r_credits_cost reward)
      then (Raise (ValueError (creditos_insuficientes (r_credits_cost reward) balance)), db)
      else
        let claim :=
          mkRewardClaim (nextval (c_id <$> reward_claims db)) reward_id user_id
            (r_credits_cost reward) cl_pending None None None in
        let ledger_entry :=
          mkCreditsLedger user_id reward_claim (- r_credits_cost reward)
            (balance - r_credits_cost reward) None
            (Some ("Reclamación de recompensa: " +:+ r_name reward)) now in
        (Ok claim,
         set_credits_ledger (λ l, l ++ [ledger_entry])
           (set_rewards_catalog (<[reward_id := decrement_stock reward]>)
              (set_reward_claims (λ l, l ++ [claim]) db)))
  end.
Proof.
  unfold claim_reward, run.
  unfold mbind at 1, M_bind at 1, query at 1. simpl.
  destruct (crud_reward_get db reward_id) as [reward|]; [|reflexivity].
  unfold_M. simpl.
  destruct (r_is_active reward); simpl; [|reflexivity].
  repeat (case_bool_decide; simpl; try reflexivity).
Qed.

Lemma run_update_claim_status db claim_id status notes utcnow :
  run (update_claim_status claim_id status notes utcnow) db =
  match head (filter (λ c, c_id c = claim_id) (reward_claims db)) with
  | None => (Ok None, db)
  | Some claim =>
    let claim' :=
      mkRewardClaim (c_id claim) (c_reward_id claim) (c_user_id claim)
        (c_credits_spent claim) status
        (if bool_decide (status = cl_approved) then Some utcnow else c_approved_at claim)
        (if bool_decide (status = cl_delivered) then Some utcnow else c_delivered_at claim)
        (if truthy notes then notes else c_notes claim) in
    (Ok (Some claim'), set_reward_claims (update_claim_row claim') db)
  end.
Proof.
  unfold update_claim_status, run.
  unfold mbind at 1, M_bind at 1, query at 1. simpl.
  destruct (head _) as [claim|]; [|reflexivity].
  unfold_M. simpl.
  destruct status, (truthy notes); reflexivity.
Qed.

Lemma run_create_exchange db exchange_in current_user exchange_id :
  run (create_exchange exchange_in current_user exchange_id) db =
  match offers db !! ec_offer_id exchange_in with
  | None => (Raise (HTTPException 404 "Oferta no encontrada"), db)
  | Some offer =>
    if bool_decide (o_status offer ≠ of_active)
    then (Raise (HTTPException 400 "La oferta no está disponible para intercambio"), db)
    else if bool_decide (o_user_id offer = current_user)
    then (Raise (HTTPException 400 "No puedes crear un intercambio con tu propia oferta"), db)
    else
      match exchanges db !! exchange_id with
      | Some _ => (Raise IntegrityError, db)
      | None =>
        let new_exchange :=
          mkExchange exchange_id (ec_offer_id exchange_in) current_user (o_user_id offer)
            (ec_location_id exchange_in) pending (o_credits_value offer)
            false false None None (ec_scheduled_at exchange_in) None None None in
        (Ok new_exchange,
         set_offers (<[ec_offer_id exchange_in := offer_with_status of_reserved offer]>)
           (set_exchange_events
              (λ l, l ++ [mkExchangeEvent exchange_id ev_created current_user
                            (ec_notes exchange_in)])
              (set_exchanges (<[exchange_id := new_exchange]>) db)))
      end
  end.
Proof.
  unfold create_exchange, run.
  unfold mbind at 1, M_bind at 1, query at 1. simpl.
  destruct (offers db !! _) as [offer|]; [|reflexivity].
  unfold_M. simpl.
  repeat (case_bool_decide; simpl; try reflexivity).
  destruct (exchanges db !! exchange_id); reflexivity.
Qed.

Lemma run_accept_exchange db exchange_id current_user :
  run (accept_exchange exchange_id current_user) db =
  match crud_exchange_get db exchange_id with
  | None => (Raise (HTTPException 404 "Intercambio no encontrado"), db)
  | Some ex =>
    if bool_decide (e_seller_id ex ≠ current_user)
    then (Raise (HTTPException 403 "Solo el vendedor puede aceptar el intercambio"), db)
    else if bool_decide (e_status ex ≠ pending)
    then (Raise (HTTPException 400 (no_se_puede "aceptar" (e_status ex))), db)
    else
      (Ok "Intercambio aceptado exitosamente",
       set_exchange_events
         (λ l, l ++ [mkExchangeEvent exchange_id ev_accepted current_user None])
         (set_exchanges (<[exchange_id := ex_with_status accepted ex]>) db))
  end.
Proof.
  unfold accept_exchange, run.
  unfold mbind at 1, M_bind at 1, query at 1. simpl.
  destruct (crud_exchange_get db exchange_id) as [ex|]; [|reflexivity].
  unfold_M. simpl.
  repeat (case_bool_decide; simpl; try reflexivity).
Qed.

Lemma run_cancel_exchange db exchange_id cancellation_data current_user :
  run (cancel_exchange exchange_id cancellation_data current_user) db =
  match crud_exchange_get db exchange_id with
  | None => (Raise (HTTPException 404 "Intercambio no encontrado"), db)
  | Some ex =>
    if bool_decide (e_buyer_id ex ≠ current_user) && bool_decide (e_seller_id ex ≠ current_user)
    then (Raise (HTTPException 403 "No tienes acceso a este intercambio"), db)
    else if bool_decide (e_status ex = completed)
    then (Raise (HTTPException 400 "No se puede cancelar un intercambio completado"), db)
    else
      let ex' :=
        ex_with_cancellation_reason (eu_cancellation_reason cancellation_data)
          (ex_with_status cancelled ex) in
      (Ok "Intercambio cancelado exitosamente",
       set_offer_status (e_offer_id ex) of_active
         (set_exchange_events
            (λ l, l ++ [mkExchangeEvent exchange_id ev_cancelled current_user
                          (eu_cancellation_reason cancellation_data)])
            (set_exchanges (<[exchange_id := ex']>) db)))
  end.
Proof.
  unfold cancel_exchange, run, set_offer_status.
  unfold mbind at 1, M_bind at 1, query at 1. simpl.
  destruct (crud_exchange_get db exchange_id) as [ex|]; [|reflexivity].
  unfold_M. simpl.
  destruct (bool_decide (e_buyer_id ex ≠ current_user) && bool_decide (e_seller_id ex ≠ current_user));
    simpl; [reflexivity|].
  case_bool_decide; simpl; [reflexivity|].
  destruct (offers db !! e_offer_id ex); reflexivity.
Qed.

Lemma run_confirm_exchange db exchange_id confirm_data current_user utcnow txn_now txn_now' :
  run (confirm_exchange exchange_id confirm_data current_user utcnow txn_now txn_now') db =
  match crud_exchange_get db exchange_id with
  | None => (Raise (HTTPException 404 "Intercambio no encontrado"), db)
  | Some ex =>
    if bool_decide (e_buyer_id ex ≠ current_user) && bool_decide (e_seller_id ex ≠ current_user)
    then (Raise (HTTPException 403 "No tienes acceso a este intercambio"), db)
    else if negb (bool_decide (e_status ex = accepted)
                  || bool_decide (e_status ex = in_progress))
    then (Raise (HTTPException 400 (no_se_puede "confirmar" (e_status ex))), db)
    else if already_confirmed ex current_user
    then (Raise (HTTPException 400 "Ya has confirmado este intercambio"), db)
    else
      let ex1 := confirmed_by current_user utcnow ex in
      let db1 :=
        set_exchange_events
          (λ l, l ++ [check_in_event exchange_id confirm_data current_user ex])
          (set_exchanges (<[exchange_id := ex1]>) db) in
      if completes ex current_user then
        let ex2 := ex_with_completed_at utcnow (ex_with_status completed ex1) in
        let offer := offers db !! e_offer_id ex in
        let db2 :=
          set_offer_status (e_offer_id ex) of_completed
            (set_exchange_events
               (λ l, l ++ [mkExchangeEvent exchange_id ev_completed current_user None])
               (set_exchanges (<[exchange_id := ex2]>) db1)) in
        let buyer_balance := get_user_balance db (e_buyer_id ex) in
        if bool_decide (buyer_balance + - e_credits_amount ex < 0)
        then (Raise (ValueError (saldo_insuficiente buyer_balance (- e_credits_amount ex))), db)
        else
          let debit :=
            mkCreditsLedger (e_buyer_id ex) exchange_payment (- e_credits_amount ex)
              (buyer_balance + - e_credits_amount ex) (Some exchange_id)
              (Some ("Pago por intercambio: " +:+ title_or_na offer)) txn_now in
          let db3 := set_credits_ledger (λ l, l ++ [debit]) db2 in
          let seller_balance := get_user_balance db3 (e_seller_id ex) in
          if bool_decide (seller_balance + e_credits_amount ex < 0)
          then (Raise (ValueError (saldo_insuficiente seller_balance (e_credits_amount ex))), db3)
          else
            let credit :=
              mkCreditsLedger (e_seller_id ex) exchange_received (e_credits_amount ex)
                (seller_balance + e_credits_amount ex) (Some exchange_id)
                (Some ("Recibo por intercambio: " +:+ title_or_na offer)) txn_now' in
            (Ok "Intercambio completado exitosamente",
             set_users (alter grant_points (e_seller_id ex))
               (set_users (alter grant_points (e_buyer_id ex))
                  (set_credits_ledger (λ l, l ++ [credit]) db3)))
      else (Ok "Confirmación registrada", db1)
  end.
Proof.
  unfold confirm_exchange, run.
  unfold mbind at 1, M_bind at 1, query at 1. simpl.
  destruct (crud_exchange_get db exchange_id) as [ex|]; [|reflexivity].
  unfold confirmed_by, completes, already_confirmed, check_in_event, set_offer_status.
  destruct ex as [? ? b s ? st ? bc sc ? ? ? ? ? ?]; simpl.
  unfold_M; simpl.
  destruct (bool_decide (b ≠ current_user)) eqn:Hb;
  destruct (bool_decide (s ≠ current_user)) eqn:Hs; simpl; try reflexivity.
  all: destruct st; simpl; try reflexivity.
  all: try (apply bool_decide_eq_true in Hb); try (apply bool_decide_eq_false in Hb);
       try (rewrite (bool_decide_eq_false_2 (b = current_user)) by done);
       try (rewrite (bool_decide_eq_true_2 (b = current_user))
              by (destruct (decide (b = current_user)); [done|tauto])); simpl.
  all: destruct bc, sc; simpl; try reflexivity.
  all: destruct (offers db !! _) eqn:Ho; simpl.
  all: repeat (first [rewrite add_credits_transaction_unfold | case_bool_decide];
               unfold get_user_balance in *; simpl in *; try lia; try reflexivity).
Qed.

(** ** The ledger query *)

Section Ledger.

Implicit Types (l : list CreditsLedger) (e : CreditsLedger).

Lemma head_insert_desc e l :
  head (insert_desc e l) =
  match head l with
  | None => Some e
  | Some h => if bool_decide (l_created_at h <= l_created_at e) then Some e else Some h
  end.
Proof. destruct l as [|h l]; simpl; [reflexivity|]. case_bool_decide; reflexivity. Qed.

Lemma head_order_cons e l :
  head (order_by_desc_created_at (e :: l)) =
  match head (order_by_desc_created_at l) with
  | None => Some e
  | Some h => if bool_decide (l_created_at h <= l_created_at e) then Some e else Some h
  end.
Proof. unfold order_by_desc_created_at. simpl. apply head_insert_desc. Qed.

(** The first row of the ordering is a row of the table, and no row has a
    later stamp. *)
Lemma head_order_max l :
  match head (order_by_desc_created_at l) with
  | None => l = []
  | Some m => m ∈ l ∧ Forall (λ x, l_created_at x <= l_created_at m) l
  end.
Proof.
  induction l as [|a l IH]; [reflexivity|].
  rewrite head_order_cons.
  destruct (head (order_by_desc_created_at l)) as [h|].
  - destruct IH as [Hin Hmax]. case_bool_decide.
    + split; [left|]. constructor; [lia|].
      eapply Forall_impl; [exact Hmax|]. simpl. intros; lia.
    + split; [right; exact Hin|]. constructor; [lia|exact Hmax].
  - subst l. split; [left|]. constructor; [lia|constructor].
Qed.

(** A row with a stamp later than all others comes first. *)
Lemma head_order_snoc_later l e :
  Forall (λ x, l_created_at x < l_created_at e) l →
  head (order_by_desc_created_at (l ++ [e])) = Some e.
Proof.
  induction 1 as [|x l Hx _ IH]; [reflexivity|].
  rewrite <- app_comm_cons, head_order_cons, IH.
  rewrite bool_decide_eq_false_2 by lia. reflexivity.
Qed.


Lemma filter_user_id_snoc user_id l e :
  filter_user_id user_id (l ++ [e]) =
  if bool_decide (l_user_id e = user_id)
  then filter_user_id user_id l ++ [e] else filter_user_id user_id l.
Proof.
  unfold filter_user_id. rewrite filter_app.
  case_bool_decide.
  - rewrite filter_cons_True by done. reflexivity.
  - rewrite filter_cons_False by done. rewrite filter_nil. apply app_nil_r.
Qed.

Lemma Forall_filter_user_id (P : CreditsLedger → Prop) user_id l :
  Forall P l → Forall P (filter_user_id user_id l).
Proof.
  rewrite !Forall_forall. intros H x Hx.
  apply list_elem_of_filter in Hx as [_ Hx]. auto.
Qed.

End Ledger.

(** The balance and the sum only look at the ledger table. *)
Lemma get_user_balance_ext db db' user_id :
  credits_ledger db' = credits_ledger db →
  get_user_balance db' user_id = get_user_balance db user_id.
Proof. unfold get_user_balance. intros ->. reflexivity. Qed.

Lemma ledger_sum_ext db db' user_id :
  credits_ledger db' = credits_ledger db →
  ledger_sum db' user_id = ledger_sum db user_id.
Proof. unfold ledger_sum. intros ->. reflexivity. Qed.

Lemma get_user_balance_snoc_later db db' e user_id :
  credits_ledger db' = credits_ledger db ++ [e] →
  later_than_ledger (l_created_at e) db →
  get_user_balance db' user_id =
  if bool_decide (l_user_id e = user_id) then l_balance_after e
  else get_user_balance db user_id.
Proof.
  unfold get_user_balance, later_than_ledger. intros -> Hlater.
  rewrite filter_user_id_snoc. case_bool_decide; [|reflexivity].
  rewrite head_order_snoc_later; [reflexivity|].
  by apply Forall_filter_user_id.
Qed.


Lemma ledger_sum_snoc db db' e user_id :
  credits_ledger db' = credits_ledger db ++ [e] →
  ledger_sum db' user_id =
  if bool_decide (l_user_id e = user_id) then ledger_sum db user_id + l_amount e
  else ledger_sum db user_id.
Proof.
  unfold ledger_sum. intros ->.
  rewrite filter_user_id_snoc. case_bool_decide; [|reflexivity].
  induction (filter_user_id user_id (credits_ledger db)) as [|x l IH]; simpl; lia.
Qed.

(** ** Completion aborts as a whole when the buyer cannot pay *)

(** C1. When a confirmation makes both flags true and the buyer's balance is
    below [credits_amount], [confirm_exchange] raises the insufficient-balance
    [ValueError] of the buyer's debit and the store is exactly what it was:
    the exchange row (status included) is unchanged, the ledger has no new
    entry and the offer keeps its status. *)
Theorem confirm_exchange_insufficient_balance_aborts
    db exchange_id confirm_data current_user utcnow txn_now txn_now' ex :
  crud_exchange_get db exchange_id = Some ex →
  participant ex current_user →
  e_status ex = accepted ∨ e_status ex = in_progress →
  already_confirmed ex current_user = false →
  completes ex current_user = true →
  get_user_balance db (e_buyer_id ex) < e_credits_amount ex →
  (run (confirm_exchange exchange_id confirm_data current_user
          utcnow txn_now txn_now') db).1
  = Raise (ValueError (saldo_insuficiente (get_user_balance db (e_buyer_id ex))
                         (- e_credits_amount ex)))
  ∧ (run (confirm_exchange exchange_id confirm_data current_user
            utcnow txn_now txn_now') db).2 = db
  ∧ crud_exchange_get
      (run (confirm_exchange exchange_id confirm_data current_user
              utcnow txn_now txn_now') db).2 exchange_id = Some ex
  ∧ credits_ledger
      (run (confirm_exchange exchange_id confirm_data current_user
              utcnow txn_now txn_now') db).2 = credits_ledger db
  ∧ offers
      (run (confirm_exchange exchange_id confirm_data current_user
              utcnow txn_now txn_now') db).2 = offers db.
Proof.
  intros Hget Hpart Hst Hnot Hcompl Hbal.
  rewrite run_confirm_exchange, Hget, Hnot, Hcompl.
  assert (bool_decide (e_buyer_id ex ≠ current_user)
          && bool_decide (e_seller_id ex ≠ current_user) = false) as ->.
  { destruct Hpart as [<-|<-].
    - rewrite bool_decide_eq_false_2; [reflexivity|]. intros H; by apply H.
    - rewrite (bool_decide_eq_false_2 (e_seller_id ex ≠ _)); [apply andb_false_r|].
      intros H; by apply H. }
  assert (negb (bool_decide (e_status ex = accepted)
                || bool_decide (e_status ex = in_progress)) = false) as ->.
  { destruct Hst as [-> | ->]; reflexivity. }
  cbv zeta. rewrite bool_decide_eq_true_2 by lia. simpl.
  repeat split; assumption.
Qed.

Lemma confirm_exchange_insufficient_balance_aborts_witness :
  (run (confirm_exchange Sample.the_exchange None Sample.seller 20 21 22)
       Sample.db_in_progress_poor).1
  = Raise (ValueError "Saldo insuficiente. Balance actual: 30, intento: -50")
  ∧ (run (confirm_exchange Sample.the_exchange None Sample.seller 20 21 22)
         Sample.db_in_progress_poor).2 = Sample.db_in_progress_poor
  ∧ (e_status <$> crud_exchange_get
       (run (confirm_exchange Sample.the_exchange None Sample.seller 20 21 22)
            Sample.db_in_progress_poor).2 Sample.the_exchange) = Some in_progress
  ∧ (o_status <$> offers
       (run (confirm_exchange Sample.the_exchange None Sample.seller 20 21 22)
            Sample.db_in_progress_poor).2 !! Sample.the_offer) = Some of_reserved.
Proof.
  destruct (confirm_exchange_insufficient_balance_aborts
              Sample.db_in_progress_poor Sample.the_exchange None Sample.seller
              20 21 22 Sample.ex_in_progress) as (H1 & H2 & H3 & _ & H5).
  - vm_compute. reflexivity.
  - right. reflexivity.
  - right. reflexivity.
  - reflexivity.
  - reflexivity.
  - vm_compute. reflexivity.
  - split_and!.
    + rewrite H1. vm_compute. reflexivity.
    + exact H2.
    + rewrite H3. reflexivity.
    + rewrite H5. vm_compute. reflexivity.
Defined.

(** ** Recording a movement *)



(** ** The seller's credit *)

Lemma credits_ledger_set_offer_status id st db :
  credits_ledger (set_offer_status id st db) = credits_ledger db.
Proof. unfold set_offer_status. destruct (offers db !! id); reflexivity. Qed.

(** The credit call on its own: with a non-negative balance and a non-negative
    amount the check cannot fire. *)
Lemma add_credits_transaction_credit_succeeds user_id ttype amount ref desc now s :
  0 <= amount →
  0 <= get_user_balance (working s) user_id →
  (add_credits_transaction user_id ttype amount ref desc now s).1
  = Ok (mkCreditsLedger user_id ttype amount
          (get_user_balance (working s) user_id + amount) ref desc now).
Proof.
  intros Ha Hb. rewrite add_credits_transaction_unfold. cbv zeta.
  rewrite bool_decide_eq_false_2 by lia. reflexivity.
Qed.



(** ** The balance is the sum of the movements *)

Lemma ledger_consistent_ext db db' :
  credits_ledger db' = credits_ledger db →
  ledger_consistent db → ledger_consistent db'.
Proof.
  intros Heq H user_id.
  rewrite (get_user_balance_ext db db'), (ledger_sum_ext db db') by assumption.
  apply H.
Qed.

(** Appending a row that was computed from the balance read under a clock
    later than every stamp keeps the ledger consistent. *)
Lemma ledger_consistent_snoc db db' e :
  ledger_consistent db →
  credits_ledger db' = credits_ledger db ++ [e] →
  later_than_ledger (l_created_at e) db →
  l_balance_after e = get_user_balance db (l_user_id e) + l_amount e →
  0 <= l_balance_after e →
  ledger_consistent db'.
Proof.
  intros Hcons Heq Hlater Hbal Hnonneg user_id.
  rewrite (get_user_balance_snoc_later db db' e) by assumption.
  rewrite (ledger_sum_snoc db db' e) by assumption.
  case_bool_decide as Hu; [|apply Hcons].
  subst user_id. split; [|assumption].
  rewrite Hbal. destruct (Hcons (l_user_id e)) as [-> _]. reflexivity.
Qed.

Lemma later_than_ledger_snoc db db' e t :
  later_than_ledger (l_created_at e) db →
  credits_ledger db' = credits_ledger db ++ [e] →
  l_created_at e < t →
  later_than_ledger t db'.
Proof.
  unfold later_than_ledger. intros Hlater -> Hlt.
  apply Forall_app. split.
  - eapply Forall_impl; [exact Hlater|]. simpl. intros; lia.
  - repeat constructor. assumption.
Qed.

(** Every request keeps the ledger consistent. *)
Lemma handle_ledger_consistent req db :
  ledger_consistent db → clock_ok req db → ledger_consistent (handle req db).
Proof.
  intros Hcons Hclock. destruct req; simpl in *.
  - rewrite run_create_exchange.
    repeat case_match; simpl; try assumption;
      (eapply ledger_consistent_ext; [|exact Hcons]; reflexivity).
  - rewrite run_accept_exchange.
    repeat case_match; simpl; try assumption;
      (eapply ledger_consistent_ext; [|exact Hcons]; reflexivity).
  - destruct Hclock as [Hlater Hlt].
    rewrite run_confirm_exchange. cbv zeta.
    destruct (crud_exchange_get db exchange_id) as [ex|]; [|assumption].
    destruct (_ && _); [assumption|].
    destruct (negb _); [assumption|].
    destruct (already_confirmed ex current_user); [assumption|].
    destruct (completes ex current_user);
      [|eapply ledger_consistent_ext; [|exact Hcons]; reflexivity].
    case_bool_decide as Hdebit; [assumption|].
    match goal with
    | |- context [set_credits_ledger (λ l, l ++ [?d]) ?db2] =>
        set (debit := d);
        set (db3 := set_credits_ledger (λ l, l ++ [debit]) db2)
    end.
    assert (credits_ledger db3 = credits_ledger db ++ [debit]) as Hdb3.
    { subst db3. simpl. rewrite credits_ledger_set_offer_status. reflexivity. }
    assert (ledger_consistent db3) as Hcons3.
    { apply (ledger_consistent_snoc db db3 debit); try assumption.
      - reflexivity.
      - simpl. lia. }
    case_bool_decide as Hcredit; [assumption|].
    match goal with
    | |- context [set_credits_ledger (λ l, l ++ [?c]) db3] => set (credit := c)
    end.
    apply (ledger_consistent_snoc db3 _ credit); try assumption.
    + reflexivity.
    + simpl. apply (later_than_ledger_snoc db db3 debit); assumption.
    + reflexivity.
    + simpl. lia.
  - rewrite run_cancel_exchange.
    repeat case_match; simpl; try assumption;
      (eapply ledger_consistent_ext; [|exact Hcons]; simpl;
       rewrite credits_ledger_set_offer_status; reflexivity).
  - rewrite run_claim_reward. cbv zeta.
    destruct (crud_reward_get db reward_id) as [reward|]; [|assumption].
    destruct (negb _); [assumption|].
    repeat (case_bool_decide; [assumption|]). simpl.
    match goal with
    | |- context [set_credits_ledger (λ l, l ++ [?e]) _] =>
        eapply (ledger_consistent_snoc db _ e); try assumption
    end.
    + reflexivity.
    + simpl. lia.
    + simpl. lia.
  - rewrite run_add_credits_transaction. cbv zeta.
    case_bool_decide; simpl; [assumption|].
    match goal with
    | |- context [set_credits_ledger (λ l, l ++ [?e]) _] =>
        eapply (ledger_consistent_snoc db _ e); try assumption
    end.
    + reflexivity.
    + reflexivity.
    + simpl. lia.
  - rewrite run_update_claim_status.
    repeat case_match; simpl; try assumption;
      (eapply ledger_consistent_ext; [|exact Hcons]; reflexivity).
Qed.


Lemma later_than_ledger_check t db :
  bool_decide (Forall (λ e, l_created_at e < t) (credits_ledger db)) = true →
  later_than_ledger t db.
Proof. apply bool_decide_eq_true_1. Qed.


(** ** A retried proposal *)




(** ** Cancelling *)

Lemma exchange_events_set_offer_status id st db :
  exchange_events (set_offer_status id st db) = exchange_events db.
Proof. unfold set_offer_status. destruct (offers db !! id); reflexivity. Qed.

Lemma not_participant_false ex current_user :
  participant ex current_user →
  bool_decide (e_buyer_id ex ≠ current_user)
  && bool_decide (e_seller_id ex ≠ current_user) = false.
Proof.
  intros [<-|<-].
  - rewrite bool_decide_eq_false_2; [reflexivity|]. intros H; by apply H.
  - rewrite (bool_decide_eq_false_2 (e_seller_id ex ≠ _)); [apply andb_false_r|].
    intros H; by apply H.
Qed.

(** C10. A cancel by a participant on an exchange that is not completed
    succeeds; the exchange row afterwards differs from the row before only in
    [status] (now cancelled) and [cancellation_reason]; the two confirmation
    flags, their stamps, [credits_amount] and [completed_at] are what they
    were.  The offer, when its row exists, becomes active, exactly one
    cancelled event is appended, and the other tables are untouched. *)
Theorem cancel_exchange_frame db exchange_id cancellation_data current_user ex :
  crud_exchange_get db exchange_id = Some ex →
  participant ex current_user →
  e_status ex ≠ completed →
  ∃ db',
    run (cancel_exchange exchange_id cancellation_data current_user) db
    = (Ok "Intercambio cancelado exitosamente", db')
    ∧ exchanges db' =
      <[exchange_id :=
          mkExchange (e_id ex) (e_offer_id ex) (e_buyer_id ex) (e_seller_id ex)
            (e_location_id ex) cancelled (e_credits_amount ex)
            (e_buyer_confirmed ex) (e_seller_confirmed ex)
            (e_buyer_confirmed_at ex) (e_seller_confirmed_at ex)
            (e_scheduled_at ex) (e_completed_at ex)
            (eu_cancellation_reason cancellation_data) (e_deleted_at ex)]>
        (exchanges db)
    ∧ exchange_events db' =
      exchange_events db
      ++ [mkExchangeEvent exchange_id ev_cancelled current_user
            (eu_cancellation_reason cancellation_data)]
    ∧ offers db' =
      match offers db !! e_offer_id ex with
      | Some o => <[e_offer_id ex := offer_with_status of_active o]> (offers db)
      | None => offers db
      end
    ∧ credits_ledger db' = credits_ledger db
    ∧ users db' = users db
    ∧ rewards_catalog db' = rewards_catalog db
    ∧ reward_claims db' = reward_claims db.
Proof.
  intros Hget Hpart Hst.
  rewrite run_cancel_exchange, Hget, not_participant_false by assumption.
  rewrite bool_decide_eq_false_2 by assumption. cbv zeta.
  eexists. split; [reflexivity|].
  unfold set_offer_status. simpl.
  destruct (offers db !! e_offer_id ex); simpl; split_and!; reflexivity.
Qed.

Lemma cancel_exchange_frame_witness :
  ∃ ex',
    exchanges (run (cancel_exchange Sample.the_exchange
                      (mkExchangeUpdate None None (Some "No puedo ir")) Sample.seller)
                 Sample.db_in_progress).2 !! Sample.the_exchange = Some ex'
    ∧ e_status ex' = cancelled
    ∧ e_buyer_confirmed ex' = true
    ∧ e_buyer_confirmed_at ex' = Some 10.
Proof.
  destruct (cancel_exchange_frame Sample.db_in_progress Sample.the_exchange
              (mkExchangeUpdate None None (Some "No puedo ir")) Sample.seller
              Sample.ex_in_progress) as (db' & Hrun & Hex & _).
  - vm_compute. reflexivity.
  - right. reflexivity.
  - discriminate.
  - rewrite Hrun. simpl. rewrite Hex, lookup_insert_eq.
    eexists. split_and!; reflexivity.
Defined.

(** ** One event per transition, two on completion *)

(** C8 does not hold for the confirmation that completes the exchange: it
    appends the check-in event and the completed event. *)
Lemma completing_confirm_appends_two_events :
  (run (confirm_exchange Sample.the_exchange None Sample.seller 20 21 22)
       Sample.db_in_progress).1 = Ok "Intercambio completado exitosamente"
  ∧ exchange_events
      (run (confirm_exchange Sample.the_exchange None Sample.seller 20 21 22)
           Sample.db_in_progress).2
    = exchange_events Sample.db_in_progress
      ++ [mkExchangeEvent Sample.the_exchange ev_check_in_seller Sample.seller None;
          mkExchangeEvent Sample.the_exchange ev_completed Sample.seller None]
  ∧ length (exchange_events
              (run (confirm_exchange Sample.the_exchange None Sample.seller 20 21 22)
                   Sample.db_in_progress).2)
    ≠ S (length (exchange_events Sample.db_in_progress)).
Proof. vm_compute. split_and!; [reflexivity | reflexivity | discriminate]. Qed.

(** C8, amended.  A successful create, accept or cancel appends exactly one
    event (created, accepted, cancelled).  A successful confirm appends the
    caller's check-in event, and when it is the confirmation that makes both
    flags true it appends the completed event right after it: one event when
    the exchange stays in progress, two when it completes. *)
Theorem exchange_events_appended db :
  (∀ exchange_in current_user exchange_id ex db',
     run (create_exchange exchange_in current_user exchange_id) db = (Ok ex, db') →
     exchange_events db' =
     exchange_events db
     ++ [mkExchangeEvent exchange_id ev_created current_user (ec_notes exchange_in)])
  ∧ (∀ exchange_id current_user msg db',
       run (accept_exchange exchange_id current_user) db = (Ok msg, db') →
       exchange_events db' =
       exchange_events db ++ [mkExchangeEvent exchange_id ev_accepted current_user None])
  ∧ (∀ exchange_id cancellation_data current_user msg db',
       run (cancel_exchange exchange_id cancellation_data current_user) db = (Ok msg, db') →
       exchange_events db' =
       exchange_events db
       ++ [mkExchangeEvent exchange_id ev_cancelled current_user
             (eu_cancellation_reason cancellation_data)])
  ∧ (∀ exchange_id confirm_data current_user utcnow txn_now txn_now' msg db',
       run (confirm_exchange exchange_id confirm_data current_user
              utcnow txn_now txn_now') db = (Ok msg, db') →
       ∃ ex,
         crud_exchange_get db exchange_id = Some ex
         ∧ exchange_events db' =
           exchange_events db
           ++ (if completes ex current_user
               then [check_in_event exchange_id confirm_data current_user ex;
                     mkExchangeEvent exchange_id ev_completed current_user None]
               else [check_in_event exchange_id confirm_data current_user ex])).
Proof.
  split_and!.
  - intros *. rewrite run_create_exchange.
    repeat (case_match; try discriminate). intros [= <- <-]. reflexivity.
  - intros *. rewrite run_accept_exchange.
    repeat (case_match; try discriminate). intros [= <- <-]. reflexivity.
  - intros *. rewrite run_cancel_exchange.
    repeat (case_match; try discriminate). intros [= <- <-].
    rewrite exchange_events_set_offer_status. reflexivity.
  - intros *. rewrite run_confirm_exchange. cbv zeta.
    destruct (crud_exchange_get db exchange_id) as [ex|]; [|discriminate].
    destruct (_ && _); [discriminate|].
    destruct (negb _); [discriminate|].
    destruct (already_confirmed ex current_user); [discriminate|].
    destruct (completes ex current_user) eqn:Hcompl.
    + case_bool_decide; [discriminate|].
      case_bool_decide; [discriminate|].
      intros [= <- <-]. exists ex. rewrite Hcompl. split; [reflexivity|].
      simpl. rewrite exchange_events_set_offer_status. simpl.
      rewrite <- app_assoc. reflexivity.
    + intros [= <- <-]. exists ex. rewrite Hcompl. split; reflexivity.
Qed.

Lemma exchange_events_appended_witness :
  exchange_events Sample.db_pending
  = [mkExchangeEvent Sample.the_exchange ev_created Sample.buyer None]
  ∧ length (exchange_events
              (run (confirm_exchange Sample.the_exchange None Sample.seller 20 21 22)
                   Sample.db_in_progress).2)
    = S (S (length (exchange_events Sample.db_in_progress))).
Proof.
  split.
  - destruct (exchange_events_appended Sample.db0) as (Hcreate & _).
    apply (Hcreate Sample.proposal Sample.buyer Sample.the_exchange Sample.ex_pending).
    vm_compute. reflexivity.
  - destruct (exchange_events_appended Sample.db_in_progress) as (_ & _ & _ & Hconfirm).
    destruct (Hconfirm Sample.the_exchange None Sample.seller 20 21 22
                "Intercambio completado exitosamente"
                (run (confirm_exchange Sample.the_exchange None Sample.seller 20 21 22)
                     Sample.db_in_progress).2)
      as (ex & Hget & Hev).
    + vm_compute. reflexivity.
    + rewrite Hev. replace ex with Sample.ex_in_progress.
      * rewrite length_app. simpl. lia.
      * vm_compute in Hget. injection Hget as <-. reflexivity.
Defined.

(** ** Claiming a reward *)

(** C5.  A successful [claim_reward] found the reward active with a positive
    stock, commits in one step the stock decremented by one, one new pending
    claim and one ledger debit of the reward's cost; the debit's
    [reference_id] is empty and does not name the claim. *)
Theorem claim_reward_effects db user_id reward_id now claim db' :
  run (claim_reward user_id reward_id now) db = (Ok claim, db') →
  ∃ reward entry,
    crud_reward_get db reward_id = Some reward
    ∧ r_is_active reward = true
    ∧ 0 < r_stock_quantity reward
    ∧ rewards_catalog db' = <[reward_id := decrement_stock reward]> (rewards_catalog db)
    ∧ r_stock_quantity (decrement_stock reward) = r_stock_quantity reward - 1
    ∧ reward_claims db' = reward_claims db ++ [claim]
    ∧ c_status claim = cl_pending
    ∧ c_user_id claim = user_id
    ∧ c_reward_id claim = reward_id
    ∧ c_credits_spent claim = r_credits_cost reward
    ∧ credits_ledger db' = credits_ledger db ++ [entry]
    ∧ l_user_id entry = user_id
    ∧ l_transaction_type entry = reward_claim
    ∧ l_amount entry = - r_credits_cost reward
    ∧ l_balance_after entry = get_user_balance db user_id - r_credits_cost reward
    ∧ l_reference_id entry = None.
Proof.
  rewrite run_claim_reward. cbv zeta.
  destruct (crud_reward_get db reward_id) as [reward|]; [|discriminate].
  destruct (r_is_active reward) eqn:Hactive; simpl; [|discriminate].
  case_bool_decide as Hstock; [discriminate|].
  case_bool_decide; [discriminate|].
  case_bool_decide; [discriminate|].
  intros [= <- <-]. eexists reward, _. simpl.
  split_and!; try reflexivity; [exact Hactive | lia].
Qed.

Lemma claim_reward_effects_witness :
  ∃ claim entry,
    (run (claim_reward Sample.buyer 1 5) Sample.db0).1 = Ok claim
    ∧ c_id claim = 1
    ∧ last (credits_ledger (run (claim_reward Sample.buyer 1 5) Sample.db0).2) = Some entry
    ∧ l_amount entry = -30
    ∧ l_reference_id entry = None.
Proof.
  destruct (claim_reward_effects Sample.db0 Sample.buyer 1 5
              (mkRewardClaim 1 1 Sample.buyer 30 cl_pending None None None)
              (run (claim_reward Sample.buyer 1 5) Sample.db0).2)
    as (reward & entry & Hget & _ & _ & _ & _ & _ & _ & _ & _ & Hcost & Hledger
        & _ & _ & Hamount & _ & Href).
  - vm_compute. reflexivity.
  - eexists _, entry. split_and!.
    + vm_compute. reflexivity.
    + reflexivity.
    + rewrite Hledger. apply last_snoc.
    + rewrite Hamount, <- Hcost. reflexivity.
    + exact Href.
Defined.

(** ** Which row is the latest *)

(** C6 does not hold: with the later-inserted row carrying the earlier
    stamp, the balance is read from the row with the latest [created_at], not
    from the row that was written last. *)
Lemma balance_follows_created_at_not_sequence :
  credits_ledger Sample.db_out_of_order
  = [mkCreditsLedger Sample.buyer admin_adjustment 10 10 None None 20;
     mkCreditsLedger Sample.buyer admin_adjustment 5 15 None None 10]
  ∧ get_user_balance Sample.db_out_of_order Sample.buyer = 10
  ∧ balance_by_sequence Sample.db_out_of_order Sample.buyer = 15
  ∧ get_user_balance Sample.db_out_of_order Sample.buyer
    ≠ balance_by_sequence Sample.db_out_of_order Sample.buyer.
Proof. vm_compute. split_and!; [reflexivity | reflexivity | reflexivity | discriminate]. Qed.

(** C6, amended.  [get_user_balance] returns 0 for a user without rows, and
    otherwise the [balance_after] of one of the user's rows whose [created_at]
    (the time stamp set by the database) is the latest among the user's
    rows. *)
Theorem get_user_balance_latest_by_created_at db user_id :
  (filter_user_id user_id (credits_ledger db) = [] ∧ get_user_balance db user_id = 0)
  ∨ (∃ e,
       e ∈ credits_ledger db
       ∧ l_user_id e = user_id
       ∧ get_user_balance db user_id = l_balance_after e
       ∧ ∀ x, x ∈ credits_ledger db → l_user_id x = user_id →
              l_created_at x <= l_created_at e).
Proof.
  unfold get_user_balance.
  pose proof (head_order_max (filter_user_id user_id (credits_ledger db))) as H.
  destruct (head _) as [m|].
  - right. destruct H as [Hin Hmax]. exists m.
    apply list_elem_of_filter in Hin as [Hu Hin].
    split_and!; [assumption | assumption | reflexivity |].
    intros x Hx Hxu. rewrite Forall_forall in Hmax. apply Hmax.
    apply list_elem_of_filter. split; assumption.
  - left. split; [assumption | reflexivity].
Qed.

Lemma get_user_balance_latest_by_created_at_witness :
  ∃ e,
    e ∈ credits_ledger Sample.db_out_of_order
    ∧ get_user_balance Sample.db_out_of_order Sample.buyer = l_balance_after e
    ∧ 10 <= l_created_at e.
Proof.
  destruct (get_user_balance_latest_by_created_at Sample.db_out_of_order Sample.buyer)
    as [[Hnil _] | (e & Hin & _ & Hbal & Hmax)].
  - vm_compute in Hnil. discriminate.
  - exists e. split_and!; [exact Hin | exact Hbal |].
    apply (Hmax (mkCreditsLedger Sample.buyer admin_adjustment 5 15 None None 10)).
    + vm_compute. right. left.
    + reflexivity.
Defined.

(** ** Administering a claim *)

(** C7 does not hold: a delivered claim can be sent back to pending, which is
    none of the three edges, and approving an approved claim a second time
    moves its [approved_at]. *)
Lemma update_claim_status_checks_no_edge :
  valid_claim_edge cl_delivered cl_pending = false
  ∧ (c_status <$> head (reward_claims Sample.db_delivered)) = Some cl_delivered
  ∧ (c_status <$> head (reward_claims
                          (handle (UpdateClaimStatus 1 cl_pending None 50)
                             Sample.db_delivered))) = Some cl_pending
  ∧ (c_approved_at <$> head (reward_claims Sample.db_approved)) = Some (Some 30)
  ∧ (run (update_claim_status 1 cl_approved None 35) Sample.db_approved).1
    = Ok (Some (mkRewardClaim 1 1 Sample.buyer 30 cl_approved (Some 35) None None))
  ∧ (c_approved_at <$> head (reward_claims
                               (handle (UpdateClaimStatus 1 cl_approved None 35)
                                  Sample.db_approved))) = Some (Some 35).
Proof. vm_compute. split_and!; reflexivity. Qed.

(** C7, amended.  For an existing claim [update_claim_status] accepts every
    target status from every current status: it sets the status, replaces the
    notes when non-empty notes are given, stamps [approved_at] when the target
    is approved and [delivered_at] when it is delivered, and returns the
    claim.  A repeated call with the claim's current status therefore succeeds;
    it leaves the claim as it is when that status is pending or rejected and no
    notes are given. *)
Theorem update_claim_status_unchecked db claim_id status notes utcnow claim :
  head (filter (λ c, c_id c = claim_id) (reward_claims db)) = Some claim →
  ∃ claim',
    run (update_claim_status claim_id status notes utcnow) db
    = (Ok (Some claim'), set_reward_claims (update_claim_row claim') db)
    ∧ c_status claim' = status
    ∧ c_approved_at claim' =
      (if bool_decide (status = cl_approved) then Some utcnow else c_approved_at claim)
    ∧ c_delivered_at claim' =
      (if bool_decide (status = cl_delivered) then Some utcnow else c_delivered_at claim)
    ∧ c_notes claim' = (if truthy notes then notes else c_notes claim)
    ∧ c_id claim' = c_id claim
    ∧ c_reward_id claim' = c_reward_id claim
    ∧ c_user_id claim' = c_user_id claim
    ∧ c_credits_spent claim' = c_credits_spent claim
    ∧ (status = c_status claim → status ≠ cl_approved → status ≠ cl_delivered →
       truthy notes = false → claim' = claim).
Proof.
  intros Hhead. rewrite run_update_claim_status, Hhead. cbv zeta.
  eexists. split; [reflexivity|]. simpl.
  split_and!; try reflexivity.
  intros -> Happ Hdel ->.
  rewrite !bool_decide_eq_false_2 by assumption.
  destruct claim; reflexivity.
Qed.

Lemma update_claim_status_unchecked_witness :
  ∃ claim',
    (run (update_claim_status 1 cl_pending None 50) Sample.db_delivered).1
    = Ok (Some claim')
    ∧ c_status claim' = cl_pending
    ∧ c_delivered_at claim' = Some 40.
Proof.
  destruct (update_claim_status_unchecked Sample.db_delivered 1 cl_pending None 50
              (mkRewardClaim 1 1 Sample.buyer 30 cl_delivered (Some 30) (Some 40) None))
    as (claim' & Hrun & Hst & _ & Hdel & _).
  - vm_compute. reflexivity.
  - exists claim'. rewrite Hrun. split_and!; [reflexivity | exact Hst | exact Hdel].
Defined.

(** ** The scenarios of the specification, run on the sample data *)

(** Happy path: pending, accepted, in progress, completed; 50 credits move from
    the buyer to the seller and the offer is completed. *)
Example scenario_happy_path :
  (e_status <$> crud_exchange_get Sample.db_pending Sample.the_exchange) = Some pending
  ∧ (o_status <$> offers Sample.db_pending !! Sample.the_offer) = Some of_reserved
  ∧ (e_status <$> crud_exchange_get Sample.db_accepted Sample.the_exchange) = Some accepted
  ∧ crud_exchange_get Sample.db_in_progress Sample.the_exchange = Some Sample.ex_in_progress
  ∧ (e_status <$> crud_exchange_get Sample.db_completed Sample.the_exchange) = Some completed
  ∧ get_user_balance Sample.db_completed Sample.buyer = 50
  ∧ get_user_balance Sample.db_completed Sample.seller = 50
  ∧ (o_status <$> offers Sample.db_completed !! Sample.the_offer) = Some of_completed
  ∧ users Sample.db_completed !! Sample.buyer = Some (mkUser 10 15).
Proof. vm_compute. split_and!; reflexivity. Qed.

(** Cancelling a completed exchange is refused and changes nothing. *)
Example scenario_cancel_completed :
  run (cancel_exchange Sample.the_exchange (mkExchangeUpdate None None None) Sample.buyer)
      Sample.db_completed
  = (Raise (HTTPException 400 "No se puede cancelar un intercambio completado"),
     Sample.db_completed).
Proof. vm_compute. reflexivity. Qed.

(** The same party confirming twice is refused and changes nothing. *)
Example scenario_confirm_twice :
  run (confirm_exchange Sample.the_exchange None Sample.buyer 30 31 32)
      Sample.db_in_progress
  = (Raise (HTTPException 400 "Ya has confirmado este intercambio"),
     Sample.db_in_progress).
Proof. vm_compute. reflexivity. Qed.

(** With one unit in stock the second claim finds the stock empty. *)
Example scenario_out_of_stock :
  (r_stock_quantity <$> rewards_catalog Sample.db_claimed !! 1) = Some 0
  ∧ run (claim_reward Sample.seller 1 6) Sample.db_claimed
    = (Raise (ValueError "Recompensa sin stock disponible"), Sample.db_claimed).
Proof. vm_compute. split; reflexivity. Qed.

(** * Further properties *)

(** ** What a request does to each table *)

Lemma crud_exchange_get_Some db id ex :
  crud_exchange_get db id = Some ex →
  exchanges db !! id = Some ex ∧ e_deleted_at ex = None.
Proof.
  unfold crud_exchange_get. destruct (exchanges db !! id) as [e|]; [|discriminate].
  case_bool_decide; [|discriminate]. intros [= <-]. split; [reflexivity|assumption].
Qed.

Lemma exchanges_set_offer_status id st db :
  exchanges (set_offer_status id st db) = exchanges db.
Proof. unfold set_offer_status. destruct (offers db !! id); reflexivity. Qed.


Lemma rewards_catalog_set_offer_status id st db :
  rewards_catalog (set_offer_status id st db) = rewards_catalog db.
Proof. unfold set_offer_status. destruct (offers db !! id); reflexivity. Qed.

Lemma reward_claims_set_offer_status id st db :
  reward_claims (set_offer_status id st db) = reward_claims db.
Proof. unfold set_offer_status. destruct (offers db !! id); reflexivity. Qed.

Lemma participant_or_not ex current_user :
  bool_decide (e_buyer_id ex ≠ current_user)
  && bool_decide (e_seller_id ex ≠ current_user) = false →
  participant ex current_user.
Proof.
  unfold participant. intros H. apply andb_false_iff in H as [H|H];
    apply bool_decide_eq_false in H.
  - left. destruct (decide (e_buyer_id ex = current_user)); tauto.
  - right. destruct (decide (e_seller_id ex = current_user)); tauto.
Qed.

Lemma confirmable_status ex :
  negb (bool_decide (e_status ex = accepted)
        || bool_decide (e_status ex = in_progress)) = false →
  e_status ex = accepted ∨ e_status ex = in_progress.
Proof. destruct (e_status ex); simpl; intros; try discriminate; auto. Qed.

(** The exchange table after a request: untouched, or one row written, which
    is either a new pending row under a free key or a step of the addressed
    row. *)
Lemma handle_exchanges req db :
  exchanges (handle req db) = exchanges db
  ∨ ∃ id ex',
      target req = Some id
      ∧ exchanges (handle req db) = <[id := ex']> (exchanges db)
      ∧ ((exchanges db !! id = None
          ∧ ∃ exchange_in current_user offer,
              offers db !! ec_offer_id exchange_in = Some offer
              ∧ o_status offer = of_active
              ∧ o_user_id offer ≠ current_user
              ∧ ex' = mkExchange id (ec_offer_id exchange_in) current_user
                        (o_user_id offer) (ec_location_id exchange_in) pending
                        (o_credits_value offer) false false None None
                        (ec_scheduled_at exchange_in) None None None)
         ∨ ∃ ex, crud_exchange_get db id = Some ex ∧ exchange_step ex ex').
Proof.
  destruct req; simpl.
  - rewrite run_create_exchange.
    destruct (offers db !! ec_offer_id exchange_in) as [offer|] eqn:Hoffer; [|by left].
    case_bool_decide as Hactive; [by left|].
    case_bool_decide as Hown; [by left|].
    destruct (exchanges db !! exchange_id) eqn:Hfree; [by left|].
    right. eexists exchange_id, _. split_and!; [reflexivity | reflexivity |].
    left. split; [assumption|]. exists exchange_in, current_user, offer.
    split_and!; first [done | destruct (decide (o_status offer = of_active)); tauto].
  - rewrite run_accept_exchange.
    destruct (crud_exchange_get db exchange_id) as [ex|] eqn:Hget; [|by left].
    case_bool_decide; [by left|].
    case_bool_decide as Hst; [by left|].
    right. eexists exchange_id, _. split_and!; [reflexivity | reflexivity |].
    right. exists ex. split; [exact Hget|]. by constructor.
  - rewrite run_confirm_exchange. cbv zeta.
    destruct (crud_exchange_get db exchange_id) as [ex|] eqn:Hget; [|by left].
    destruct (_ && _) eqn:Hpart; [by left|].
    destruct (negb _) eqn:Hst; [by left|].
    destruct (already_confirmed ex current_user) eqn:Hnot; [by left|].
    apply participant_or_not in Hpart. apply confirmable_status in Hst.
    destruct (completes ex current_user) eqn:Hcompl.
    + case_bool_decide; [by left|].
      right. eexists exchange_id, _. split; [reflexivity|]. split.
      * case_bool_decide; simpl; rewrite exchanges_set_offer_status; simpl;
          apply insert_insert_eq.
      * right. exists ex. split; [exact Hget|]. by eapply step_complete.
    + right. eexists exchange_id, _. split_and!; [reflexivity | reflexivity |].
      right. exists ex. split; [exact Hget|]. by eapply step_confirm.
  - rewrite run_cancel_exchange. cbv zeta.
    destruct (crud_exchange_get db exchange_id) as [ex|] eqn:Hget; [|by left].
    destruct (_ && _); [by left|].
    case_bool_decide as Hst; [by left|].
    right. eexists exchange_id, _. split; [reflexivity|]. split.
    + simpl. rewrite exchanges_set_offer_status. reflexivity.
    + right. exists ex. split; [exact Hget|]. by constructor.
  - left. rewrite run_claim_reward. cbv zeta. repeat case_match; reflexivity.
  - left. rewrite run_add_credits_transaction. cbv zeta. case_match; reflexivity.
  - left. rewrite run_update_claim_status. cbv zeta. repeat case_match; reflexivity.
Qed.

(** ** Exchange rows under arbitrary requests *)

Lemma exchange_step_fields ex ex' :
  exchange_step ex ex' →
  e_id ex' = e_id ex
  ∧ e_offer_id ex' = e_offer_id ex
  ∧ e_buyer_id ex' = e_buyer_id ex
  ∧ e_seller_id ex' = e_seller_id ex
  ∧ e_credits_amount ex' = e_credits_amount ex
  ∧ e_location_id ex' = e_location_id ex
  ∧ e_scheduled_at ex' = e_scheduled_at ex
  ∧ e_deleted_at ex' = e_deleted_at ex.
Proof.
  destruct 1; unfold confirmed_by; simpl;
    repeat (case_bool_decide; simpl); split_and!; reflexivity.
Qed.

(** X1. Once an exchange is completed, or once its row is soft-deleted, no
    create, accept, confirm, cancel, claim, credit transaction or claim update
    changes its row any more. *)
Theorem completed_exchange_is_final req db id ex :
  exchanges db !! id = Some ex →
  e_status ex = completed ∨ e_deleted_at ex ≠ None →
  exchanges (handle req db) !! id = Some ex.
Proof.
  intros Hrow Hfinal.
  destruct (handle_exchanges req db)
    as [-> | (id' & ex' & _ & -> & [[Hfree _] | (ex0 & Hget & Hstep)])];
    [assumption | |].
  - rewrite lookup_insert_ne; [assumption|]. intros ->. congruence.
  - destruct (decide (id' = id)) as [->|]; [|by rewrite lookup_insert_ne].
    exfalso. apply crud_exchange_get_Some in Hget as [Hrow' Hlive].
    assert (ex0 = ex) as -> by congruence.
    destruct Hfinal as [Hdone | Hdel]; [|contradiction].
    inversion Hstep; subst; intuition congruence.
Qed.

Lemma completed_exchange_is_final_witness :
  exchanges (handle (CancelExchange Sample.the_exchange
                       (mkExchangeUpdate None None (Some "tarde")) Sample.buyer)
               Sample.db_completed) !! Sample.the_exchange
  = exchanges Sample.db_completed !! Sample.the_exchange.
Proof.
  destruct (exchanges Sample.db_completed !! Sample.the_exchange) as [ex|] eqn:Hrow.
  - apply completed_exchange_is_final; [exact Hrow|].
    left. vm_compute in Hrow. injection Hrow as <-. reflexivity.
  - vm_compute in Hrow. discriminate.
Defined.

(** X2. No request removes an exchange row or changes who trades what for how
    much: the row stays under its key with the same id, offer, buyer, seller,
    [credits_amount], location, schedule and deletion mark. *)
Theorem exchange_terms_are_immutable req db id ex :
  exchanges db !! id = Some ex →
  ∃ ex',
    exchanges (handle req db) !! id = Some ex'
    ∧ e_id ex' = e_id ex
    ∧ e_offer_id ex' = e_offer_id ex
    ∧ e_buyer_id ex' = e_buyer_id ex
    ∧ e_seller_id ex' = e_seller_id ex
    ∧ e_credits_amount ex' = e_credits_amount ex
    ∧ e_location_id ex' = e_location_id ex
    ∧ e_scheduled_at ex' = e_scheduled_at ex
    ∧ e_deleted_at ex' = e_deleted_at ex.
Proof.
  intros Hrow.
  destruct (handle_exchanges req db)
    as [-> | (id' & ex' & _ & -> & [[Hfree _] | (ex0 & Hget & Hstep)])].
  - exists ex. split_and!; done.
  - exists ex. rewrite lookup_insert_ne; [split_and!; done|]. intros ->. congruence.
  - destruct (decide (id' = id)) as [->|].
    + apply crud_exchange_get_Some in Hget as [Hrow' _].
      assert (ex0 = ex) as -> by congruence.
      exists ex'. rewrite lookup_insert_eq. split; [reflexivity|].
      by apply exchange_step_fields.
    + exists ex. rewrite lookup_insert_ne by done. split_and!; done.
Qed.

Lemma exchange_terms_are_immutable_witness :
  ∃ ex',
    exchanges Sample.db_completed !! Sample.the_exchange = Some ex'
    ∧ e_credits_amount ex' = 50
    ∧ e_buyer_id ex' = Sample.buyer.
Proof.
  destruct (exchange_terms_are_immutable
              (ConfirmExchange Sample.the_exchange None Sample.seller 20 21 22)
              Sample.db_in_progress Sample.the_exchange Sample.ex_in_progress)
    as (ex' & Hrow & _ & _ & Hbuyer & _ & Hamount & _).
  - vm_compute. reflexivity.
  - exists ex'. split_and!; [exact Hrow | exact Hamount | exact Hbuyer].
Defined.

(** X3. A request only writes the exchange it addresses: every other row of
    the exchange table is the same before and after. *)
Theorem other_exchanges_untouched req db id :
  target req ≠ Some id →
  exchanges (handle req db) !! id = exchanges db !! id.
Proof.
  intros Hother.
  destruct (handle_exchanges req db) as [-> | (id' & ex' & Htarget & -> & _)];
    [reflexivity|].
  apply lookup_insert_ne. intros ->. contradiction.
Qed.

Lemma other_exchanges_untouched_witness :
  exchanges (handle (CancelExchange 10%N (mkExchangeUpdate None None None) Sample.buyer)
               Sample.db_in_progress) !! Sample.the_exchange
  = exchanges Sample.db_in_progress !! Sample.the_exchange.
Proof. apply other_exchanges_untouched. discriminate. Defined.

(** X4. The status of an exchange row only moves along the edges
    pending→accepted, accepted→in_progress, accepted/in_progress→completed and
    anything-but-completed→cancelled; no request assigns [disputed] or
    [pending], and a cancelled exchange stays cancelled. *)
Theorem exchange_status_edges req db id ex ex' :
  exchanges db !! id = Some ex →
  exchanges (handle req db) !! id = Some ex' →
  e_status ex' = e_status ex
  ∨ (e_status ex = pending ∧ e_status ex' = accepted)
  ∨ (e_status ex = accepted ∧ e_status ex' = in_progress)
  ∨ ((e_status ex = accepted ∨ e_status ex = in_progress) ∧ e_status ex' = completed)
  ∨ (e_status ex ≠ completed ∧ e_status ex' = cancelled).
Proof.
  intros Hrow.
  destruct (handle_exchanges req db)
    as [-> | (id' & ex1 & _ & -> & [[Hfree _] | (ex0 & Hget & Hstep)])].
  - intros. left. congruence.
  - rewrite lookup_insert_ne; [|intros ->; congruence]. intros. left. congruence.
  - destruct (decide (id' = id)) as [->|];
      [|rewrite lookup_insert_ne by done; intros; left; congruence].
    rewrite lookup_insert_eq. intros [= <-].
    apply crud_exchange_get_Some in Hget as [Hrow' _].
    assert (ex0 = ex) as -> by congruence.
    destruct Hstep as [ex Hst | ex u t _ Hst _ _ | ex u t _ Hst _ _ | ex r Hst].
    + right. left. by split.
    + unfold confirmed_by.
      destruct Hst as [Hst|Hst];
        repeat (case_bool_decide; simpl); rewrite ?Hst in *; simpl in *;
        try congruence; auto.
    + do 3 right. left. by split.
    + do 4 right. by split.
Qed.

Lemma exchange_status_edges_witness :
  (e_status <$> exchanges Sample.db_accepted !! Sample.the_exchange) = Some accepted.
Proof.
  destruct (exchanges Sample.db_accepted !! Sample.the_exchange) as [ex'|] eqn:Hrow';
    [|vm_compute in Hrow'; discriminate].
  destruct (exchange_status_edges (AcceptExchange Sample.the_exchange Sample.seller)
              Sample.db_pending Sample.the_exchange Sample.ex_pending ex')
    as [H | [[_ H] | [[H _] | [[[H|H] _] | [H _]]]]].
  - vm_compute. reflexivity.
  - exact Hrow'.
  - vm_compute in Hrow'. injection Hrow' as <-. discriminate.
  - simpl. by rewrite H.
  - discriminate.
  - discriminate.
  - discriminate.
  - vm_compute in Hrow'. injection Hrow' as <-. reflexivity.
Defined.

(** ** Dual confirmation *)

Lemma exchange_step_coherent ex ex' :
  exchange_coherent ex → exchange_step ex ex' → exchange_coherent ex'.
Proof.
  intros Hco Hstep. destruct Hstep as
    [ex Hst | ex u t _ Hst Hnot Hcompl | ex u t _ Hst Hnot Hcompl | ex r Hst];
    destruct ex as [? ? b s ? st ? bc sc bt stt ? ct ? ?];
    unfold exchange_coherent, is_confirmed, confirmed_by, already_confirmed, completes in *;
    simpl in *.
  - subst st. destruct bc, sc; simpl in *; intuition (try congruence; try discriminate).
  - destruct (bool_decide (b = u)); simpl in *; subst;
      destruct Hst as [-> | ->]; simpl in *;
      intuition (try congruence; try discriminate).
  - destruct (bool_decide (b = u)); simpl in *; subst;
      destruct Hst as [-> | ->]; simpl in *;
      intuition (try congruence; try discriminate).
  - destruct bc, sc; simpl in *; intuition (try congruence; try discriminate).
Qed.

(** X5. The dual-confirmation discipline is kept by every request: if in
    every exchange row the flags match their stamps, no flag is set before the
    exchange is in progress, at least one is set while it is, and both flags
    and [completed_at] are set exactly on completed rows, then the same holds
    after the request. *)
Theorem dual_confirmation_is_kept req db :
  exchanges_coherent db → exchanges_coherent (handle req db).
Proof.
  intros Hco id e.
  destruct (handle_exchanges req db)
    as [-> | (id' & ex' & _ & -> & [[Hfree Hnew] | (ex0 & Hget & Hstep)])];
    [apply Hco | |].
  - destruct (decide (id' = id)) as [->|]; [|rewrite lookup_insert_ne by done; apply Hco].
    rewrite lookup_insert_eq. intros [= <-].
    destruct Hnew as (? & ? & ? & _ & _ & _ & ->).
    unfold exchange_coherent, is_confirmed. simpl.
    intuition (try congruence; try discriminate).
  - destruct (decide (id' = id)) as [->|]; [|rewrite lookup_insert_ne by done; apply Hco].
    rewrite lookup_insert_eq. intros [= <-].
    apply crud_exchange_get_Some in Hget as [Hrow _].
    eapply exchange_step_coherent; [|exact Hstep]. by eapply Hco.
Qed.

Lemma dual_confirmation_is_kept_witness :
  ∃ e,
    exchanges Sample.db_completed !! Sample.the_exchange = Some e
    ∧ is_confirmed e = true
    ∧ e_completed_at e ≠ None.
Proof.
  assert (exchanges_coherent Sample.db_completed) as Hco.
  { unfold Sample.db_completed, Sample.db_in_progress, Sample.db_accepted,
      Sample.db_pending, Sample.db0.
    do 5 apply dual_confirmation_is_kept.
    intros id e Hrow. vm_compute in Hrow. discriminate. }
  destruct (exchanges Sample.db_completed !! Sample.the_exchange) as [e|] eqn:Hrow;
    [|vm_compute in Hrow; discriminate].
  exists e. split; [reflexivity|].
  destruct (Hco _ _ Hrow) as (_ & _ & Hflags & Hstamp & _).
  split; [apply Hflags | apply Hstamp];
    vm_compute in Hrow; injection Hrow as <-; reflexivity.
Defined.

(** ** The audit tables *)

(** X6. The ledger and the event log are append-only: whatever the request,
    the rows and events that were there stay in place, at most two of each are
    added, every added ledger row has a non-negative [balance_after] (the
    CHECK constraint of the table is never violated), and every added event
    belongs to the exchange the request addresses. *)
Theorem ledger_and_events_are_append_only req db :
  (∃ rows,
     credits_ledger (handle req db) = credits_ledger db ++ rows
     ∧ (length rows ≤ 2)%nat
     ∧ Forall (λ r, 0 <= l_balance_after r) rows)
  ∧ (∃ evs,
       exchange_events (handle req db) = exchange_events db ++ evs
       ∧ (length evs ≤ 2)%nat
       ∧ Forall (λ ev, target req = Some (ev_exchange_id ev)) evs).
Proof.
  split.
  {
  destruct req; simpl.
  - exists []. rewrite app_nil_r. split_and!; [|simpl; lia|constructor].
    rewrite run_create_exchange. repeat case_match; reflexivity.
  - exists []. rewrite app_nil_r. split_and!; [|simpl; lia|constructor].
    rewrite run_accept_exchange. repeat case_match; reflexivity.
  - rewrite run_confirm_exchange. cbv zeta.
    destruct (crud_exchange_get db exchange_id) as [ex|];
      [|by (exists []; rewrite app_nil_r; split_and!; [done | simpl; lia | constructor])].
    destruct (_ && _);
      [by (exists []; rewrite app_nil_r; split_and!; [done | simpl; lia | constructor])|].
    destruct (negb _);
      [by (exists []; rewrite app_nil_r; split_and!; [done | simpl; lia | constructor])|].
    destruct (already_confirmed ex current_user);
      [by (exists []; rewrite app_nil_r; split_and!; [done | simpl; lia | constructor])|].
    destruct (completes ex current_user);
      [|by (exists []; rewrite app_nil_r; split_and!; [done | simpl; lia | constructor])].
    case_bool_decide as Hdebit;
      [by (exists []; rewrite app_nil_r; split_and!; [done | simpl; lia | constructor])|].
    case_bool_decide as Hcredit; simpl; rewrite credits_ledger_set_offer_status; simpl.
    + eexists [_]. split_and!; [reflexivity | simpl; lia |].
      repeat constructor. simpl. lia.
    + eexists [_; _]. split_and!; [by rewrite <- app_assoc | simpl; lia |].
      repeat constructor; simpl; lia.
  - exists []. rewrite app_nil_r. split_and!; [|simpl; lia|constructor].
    rewrite run_cancel_exchange. cbv zeta.
    repeat case_match; simpl; rewrite ?credits_ledger_set_offer_status; reflexivity.
  - rewrite run_claim_reward. cbv zeta.
    destruct (crud_reward_get db reward_id) as [reward|];
      [|by (exists []; rewrite app_nil_r; split_and!; [done | simpl; lia | constructor])].
    destruct (negb _);
      [by (exists []; rewrite app_nil_r; split_and!; [done | simpl; lia | constructor])|].
    repeat (case_bool_decide;
      [by (exists []; rewrite app_nil_r; split_and!; [done | simpl; lia | constructor])|]).
    eexists [_]. split_and!; [reflexivity | simpl; lia |].
    repeat constructor. simpl. lia.
  - rewrite run_add_credits_transaction. cbv zeta.
    case_bool_decide;
      [by (exists []; rewrite app_nil_r; split_and!; [done | simpl; lia | constructor])|].
    eexists [_]. split_and!; [reflexivity | simpl; lia |].
    repeat constructor. simpl. lia.
  - exists []. rewrite app_nil_r. split_and!; [|simpl; lia|constructor].
    rewrite run_update_claim_status. cbv zeta. repeat case_match; reflexivity.
  }
  {
  destruct req; simpl.
  - rewrite run_create_exchange.
    repeat case_match; simpl;
      first [ by (exists []; rewrite app_nil_r; split_and!; [done | simpl; lia | constructor])
            | eexists [_]; split_and!; [reflexivity | simpl; lia | repeat constructor] ].
  - rewrite run_accept_exchange.
    repeat case_match; simpl;
      first [ by (exists []; rewrite app_nil_r; split_and!; [done | simpl; lia | constructor])
            | eexists [_]; split_and!; [reflexivity | simpl; lia | repeat constructor] ].
  - rewrite run_confirm_exchange. cbv zeta.
    repeat case_match; simpl; rewrite ?exchange_events_set_offer_status; simpl;
      first [ by (exists []; rewrite app_nil_r; split_and!; [done | simpl; lia | constructor])
            | eexists [_]; split_and!; [reflexivity | simpl; lia | repeat constructor]
            | eexists [_; _]; split_and!;
                [by rewrite <- app_assoc | simpl; lia | repeat constructor] ].
  - rewrite run_cancel_exchange. cbv zeta.
    repeat case_match; simpl; rewrite ?exchange_events_set_offer_status; simpl;
      first [ by (exists []; rewrite app_nil_r; split_and!; [done | simpl; lia | constructor])
            | eexists [_]; split_and!; [reflexivity | simpl; lia | repeat constructor] ].
  - exists []. rewrite app_nil_r. split_and!; [|simpl; lia|constructor].
    rewrite run_claim_reward. cbv zeta. repeat case_match; reflexivity.
  - exists []. rewrite app_nil_r. split_and!; [|simpl; lia|constructor].
    rewrite run_add_credits_transaction. cbv zeta. case_match; reflexivity.
  - exists []. rewrite app_nil_r. split_and!; [|simpl; lia|constructor].
    rewrite run_update_claim_status. cbv zeta. repeat case_match; reflexivity.
  }
Qed.

(** ** Credits in a completion *)

Lemma ledger_total_app db db' rows :
  credits_ledger db' = credits_ledger db ++ rows →
  ledger_total db' = ledger_total db + foldr (λ e acc, l_amount e + acc) 0 rows.
Proof.
  unfold ledger_total. intros ->.
  induction (credits_ledger db) as [|x l IH]; simpl; lia.
Qed.

(** X7. A confirmation that succeeds neither creates nor destroys credits:
    the sum of all amounts in the ledger is the same before and after (the
    debit of the buyer and the credit of the seller cancel out). *)
Theorem confirm_exchange_conserves_credits
    db exchange_id confirm_data current_user utcnow txn_now txn_now' msg db' :
  run (confirm_exchange exchange_id confirm_data current_user
         utcnow txn_now txn_now') db = (Ok msg, db') →
  ledger_total db' = ledger_total db.
Proof.
  rewrite run_confirm_exchange. cbv zeta.
  destruct (crud_exchange_get db exchange_id) as [ex|]; [|discriminate].
  destruct (_ && _); [discriminate|].
  destruct (negb _); [discriminate|].
  destruct (already_confirmed ex current_user); [discriminate|].
  destruct (completes ex current_user).
  - case_bool_decide; [discriminate|].
    case_bool_decide; [discriminate|].
    intros [= <- <-].
    erewrite ledger_total_app.
    2:{ simpl. rewrite credits_ledger_set_offer_status. simpl.
        rewrite <- app_assoc. reflexivity. }
    simpl. lia.
  - intros [= <- <-]. reflexivity.
Qed.

Lemma confirm_exchange_conserves_credits_witness :
  ledger_total Sample.db_completed = 100.
Proof.
  rewrite (confirm_exchange_conserves_credits Sample.db_in_progress Sample.the_exchange
             None Sample.seller 20 21 22 "Intercambio completado exitosamente"
             Sample.db_completed).
  - vm_compute. reflexivity.
  - vm_compute. reflexivity.
Defined.

(** X8. When a confirmation completes an exchange between two different
    users, under a database clock later than every stamp of the ledger, the
    balance read back for the buyer is the old one minus [credits_amount], the
    balance of the seller is the old one plus [credits_amount], and nobody
    else's balance moves. *)
Theorem completion_moves_credits
    db exchange_id confirm_data current_user utcnow txn_now txn_now' ex db' :
  crud_exchange_get db exchange_id = Some ex →
  e_buyer_id ex ≠ e_seller_id ex →
  later_than_ledger txn_now db →
  txn_now < txn_now' →
  run (confirm_exchange exchange_id confirm_data current_user
         utcnow txn_now txn_now') db
  = (Ok "Intercambio completado exitosamente", db') →
  get_user_balance db' (e_buyer_id ex)
  = get_user_balance db (e_buyer_id ex) - e_credits_amount ex
  ∧ get_user_balance db' (e_seller_id ex)
    = get_user_balance db (e_seller_id ex) + e_credits_amount ex
  ∧ ∀ user_id, user_id ≠ e_buyer_id ex → user_id ≠ e_seller_id ex →
               get_user_balance db' user_id = get_user_balance db user_id.
Proof.
  intros Hget Hdiff Hlater Hlt.
  rewrite run_confirm_exchange, Hget. cbv zeta.
  destruct (_ && _); [discriminate|].
  destruct (negb _); [discriminate|].
  destruct (already_confirmed ex current_user); [discriminate|].
  destruct (completes ex current_user); [|discriminate].
  case_bool_decide; [discriminate|].
  match goal with
  | |- context [set_credits_ledger (λ l, l ++ [?d]) ?db2] =>
      set (debit := d); set (db3 := set_credits_ledger (λ l, l ++ [debit]) db2)
  end.
  assert (credits_ledger db3 = credits_ledger db ++ [debit]) as Hdb3.
  { subst db3. simpl. rewrite credits_ledger_set_offer_status. reflexivity. }
  assert (∀ u, get_user_balance db3 u =
               if bool_decide (e_buyer_id ex = u) then l_balance_after debit
               else get_user_balance db u) as Hbal3.
  { intros u. by rewrite (get_user_balance_snoc_later db db3 debit). }
  case_bool_decide; [discriminate|].
  match goal with
  | |- context [set_credits_ledger (λ l, l ++ [?c]) db3] => set (credit := c)
  end.
  intros [= <-].
  assert (∀ u, get_user_balance
                 (set_users (alter grant_points (e_seller_id ex))
                    (set_users (alter grant_points (e_buyer_id ex))
                       (set_credits_ledger (λ l, l ++ [credit]) db3))) u =
               if bool_decide (e_seller_id ex = u) then l_balance_after credit
               else get_user_balance db3 u) as Hbal.
  { intros u. apply (get_user_balance_snoc_later db3 _ credit); [reflexivity|].
    simpl. by apply (later_than_ledger_snoc db db3 debit). }
  split_and!.
  - rewrite Hbal, Hbal3.
    rewrite bool_decide_eq_false_2 by congruence.
    rewrite bool_decide_eq_true_2 by reflexivity. simpl. lia.
  - rewrite Hbal. rewrite bool_decide_eq_true_2 by reflexivity.
    simpl. rewrite Hbal3. rewrite bool_decide_eq_false_2 by assumption. reflexivity.
  - intros u Hb Hs. rewrite Hbal, Hbal3.
    rewrite !bool_decide_eq_false_2 by congruence. reflexivity.
Qed.

Lemma completion_moves_credits_witness :
  get_user_balance Sample.db_completed Sample.buyer
  = get_user_balance Sample.db_in_progress Sample.buyer - 50
  ∧ get_user_balance Sample.db_completed Sample.seller
    = get_user_balance Sample.db_in_progress Sample.seller + 50.
Proof.
  destruct (completion_moves_credits Sample.db_in_progress Sample.the_exchange None
              Sample.seller 20 21 22 Sample.ex_in_progress Sample.db_completed)
    as (Hb & Hs & _).
  - vm_compute. reflexivity.
  - discriminate.
  - apply later_than_ledger_check. vm_compute. reflexivity.
  - lia.
  - vm_compute. reflexivity.
  - split; [exact Hb | exact Hs].
Defined.

(** ** Stock and claims *)

Lemma crud_reward_get_Some db id r :
  crud_reward_get db id = Some r → rewards_catalog db !! id = Some r.
Proof.
  unfold crud_reward_get. destruct (rewards_catalog db !! id) as [r'|]; [|discriminate].
  case_bool_decide; [|discriminate]. by intros [= <-].
Qed.




(** The reward and claim tables after a request: untouched, or one unit taken
    from an active reward in stock together with one new pending claim, or one
    claim rewritten in place. *)
Lemma handle_rewards_and_claims req db :
  (rewards_catalog (handle req db) = rewards_catalog db
   ∧ reward_claims (handle req db) = reward_claims db)
  ∨ (∃ reward_id r claim,
       crud_reward_get db reward_id = Some r
       ∧ r_is_active r = true
       ∧ 0 < r_stock_quantity r
       ∧ rewards_catalog (handle req db)
         = <[reward_id := decrement_stock r]> (rewards_catalog db)
       ∧ reward_claims (handle req db) = reward_claims db ++ [claim]
       ∧ c_reward_id claim = reward_id
       ∧ c_id claim = nextval (c_id <$> reward_claims db)
       ∧ c_status claim = cl_pending)
  ∨ (∃ claim claim',
       rewards_catalog (handle req db) = rewards_catalog db
       ∧ claim ∈ reward_claims db
       ∧ c_id claim' = c_id claim
       ∧ c_reward_id claim' = c_reward_id claim
       ∧ c_user_id claim' = c_user_id claim
       ∧ c_credits_spent claim' = c_credits_spent claim
       ∧ reward_claims (handle req db) = update_claim_row claim' (reward_claims db)).
Proof.
  destruct req; simpl.
  - left. rewrite run_create_exchange. repeat case_match; simpl; by split.
  - left. rewrite run_accept_exchange. repeat case_match; simpl; by split.
  - left. rewrite run_confirm_exchange. cbv zeta.
    repeat case_match; simpl;
      rewrite ?rewards_catalog_set_offer_status, ?reward_claims_set_offer_status;
      by split.
  - left. rewrite run_cancel_exchange. cbv zeta.
    repeat case_match; simpl;
      rewrite ?rewards_catalog_set_offer_status, ?reward_claims_set_offer_status;
      by split.
  - rewrite run_claim_reward. cbv zeta.
    destruct (crud_reward_get db reward_id) as [reward|] eqn:Hget; [|by left].
    destruct (r_is_active reward) eqn:Hactive; simpl; [|by left].
    case_bool_decide as Hstock; [by left|].
    repeat (case_bool_decide; [by left|]). simpl.
    right. left. eexists reward_id, reward, _.
    split_and!; try reflexivity; [exact Hget | exact Hactive | lia].
  - left. rewrite run_add_credits_transaction. cbv zeta. case_match; simpl; by split.
  - rewrite run_update_claim_status. cbv zeta.
    destruct (head _) as [claim|] eqn:Hhead; [|by left]. simpl.
    apply head_Some_elem_of, list_elem_of_filter in Hhead as [_ Hin].
    right. right.
    match goal with
    | |- context [update_claim_row ?c _] => exists claim, c
    end.
    split_and!; try reflexivity. assumption.
Qed.



(** X10. The stock of a reward only goes down, one unit at a time, and only
    while it is positive and the reward is active: after any request the
    reward row is still there with the same name, cost, activity and deletion
    mark, and its stock is the old one or, if that was positive, one less.  In
    particular a non-negative stock stays non-negative. *)
Theorem reward_stock_only_decreases req db reward_id r :
  rewards_catalog db !! reward_id = Some r →
  ∃ r',
    rewards_catalog (handle req db) !! reward_id = Some r'
    ∧ r_name r' = r_name r
    ∧ r_credits_cost r' = r_credits_cost r
    ∧ r_is_active r' = r_is_active r
    ∧ r_deleted_at r' = r_deleted_at r
    ∧ (r_stock_quantity r' = r_stock_quantity r
       ∨ (r_stock_quantity r' = r_stock_quantity r - 1
          ∧ 0 < r_stock_quantity r ∧ r_is_active r = true))
    ∧ (0 <= r_stock_quantity r → 0 <= r_stock_quantity r').
Proof.
  intros Hrow.
  destruct (handle_rewards_and_claims req db)
    as [[-> _] | [(rid & r0 & claim & Hget & Hactive & Hstock & -> & _)
                 | (claim & claim' & -> & _)]].
  - exists r. split_and!; auto.
  - apply crud_reward_get_Some in Hget.
    destruct (decide (rid = reward_id)) as [->|Hne].
    + assert (r0 = r) as -> by congruence.
      exists (decrement_stock r). rewrite lookup_insert_eq. simpl.
      split_and!; try reflexivity; [right; by split_and! | lia].
    + exists r. rewrite lookup_insert_ne by done. split_and!; auto.
  - exists r. split_and!; auto.
Qed.

Lemma reward_stock_only_decreases_witness :
  ∃ r',
    rewards_catalog Sample.db_claimed !! 1 = Some r'
    ∧ r_credits_cost r' = 30
    ∧ 0 <= r_stock_quantity r'.
Proof.
  destruct (reward_stock_only_decreases (ClaimReward Sample.buyer 1 5) Sample.db0 1
              (mkRewardsCatalog "Taza" 30 1 true None))
    as (r' & Hrow & _ & Hcost & _ & _ & _ & Hnonneg).
  - vm_compute. reflexivity.
  - exists r'. split_and!; [exact Hrow | exact Hcost | apply Hnonneg; simpl; lia].
Defined.

(** ** Points and offers *)


Lemma offers_handle req db :
  offers (handle req db) = offers db
  ∨ ∃ id o st,
      offers db !! id = Some o
      ∧ offers (handle req db) = <[id := offer_with_status st o]> (offers db).
Proof.
  assert (∀ id st db0, offers (set_offer_status id st db0) = offers db0
            ∨ ∃ o, offers db0 !! id = Some o
                   ∧ offers (set_offer_status id st db0)
                     = <[id := offer_with_status st o]> (offers db0)) as Hset.
  { intros id st db0. unfold set_offer_status.
    destruct (offers db0 !! id) as [o|] eqn:Ho; [right; by exists o | by left]. }
  destruct req; simpl.
  - rewrite run_create_exchange.
    destruct (offers db !! ec_offer_id exchange_in) as [offer|] eqn:Hoffer; [|by left].
    repeat (case_match; simpl; try by left).
    right. by eexists _, offer, _.
  - left. rewrite run_accept_exchange. repeat case_match; reflexivity.
  - rewrite run_confirm_exchange. cbv zeta.
    repeat (case_match; simpl; try by left);
      match goal with
      | |- context [set_offer_status ?id ?st ?db0] =>
          destruct (Hset id st db0) as [-> | (o & Ho & ->)];
            [by left | right; by exists id, o, st]
      end.
  - rewrite run_cancel_exchange. cbv zeta.
    repeat (case_match; simpl; try by left);
      match goal with
      | |- context [set_offer_status ?id ?st ?db0] =>
          destruct (Hset id st db0) as [-> | (o & Ho & ->)];
            [by left | right; by exists id, o, st]
      end.
  - left. rewrite run_claim_reward. cbv zeta. repeat case_match; reflexivity.
  - left. rewrite run_add_credits_transaction. cbv zeta. case_match; reflexivity.
  - left. rewrite run_update_claim_status. cbv zeta. repeat case_match; reflexivity.
Qed.

(** X12. No request removes an offer or changes its owner, title or price;
    the only column of an offer the core writes is its status. *)
Theorem offer_terms_are_immutable req db id o :
  offers db !! id = Some o →
  ∃ o',
    offers (handle req db) !! id = Some o'
    ∧ o_user_id o' = o_user_id o
    ∧ o_title o' = o_title o
    ∧ o_credits_value o' = o_credits_value o.
Proof.
  intros Hrow.
  destruct (offers_handle req db) as [-> | (id' & o0 & st & Hrow' & ->)].
  - exists o. by split_and!.
  - destruct (decide (id' = id)) as [->|].
    + assert (o0 = o) as -> by congruence.
      exists (offer_with_status st o). rewrite lookup_insert_eq. by split_and!.
    + exists o. rewrite lookup_insert_ne by done. by split_and!.
Qed.

Lemma offer_terms_are_immutable_witness :
  ∃ o',
    offers Sample.db_completed !! Sample.the_offer = Some o'
    ∧ o_user_id o' = Sample.seller
    ∧ o_credits_value o' = 50.
Proof.
  destruct (offer_terms_are_immutable
              (ConfirmExchange Sample.the_exchange None Sample.seller 20 21 22)
              Sample.db_in_progress Sample.the_offer
              (mkOffer Sample.seller "Libro" of_reserved 50))
    as (o' & Hrow & Howner & _ & Hvalue).
  - vm_compute. reflexivity.
  - exists o'. split_and!; [exact Hrow | exact Howner | exact Hvalue].
Defined.

(** ** Requests that fail *)



(** ** The history of a user *)

Lemma insert_desc_Permutation e l : insert_desc e l ≡ₚ e :: l.
Proof.
  induction l as [|x l IH]; simpl; [reflexivity|].
  case_bool_decide; [reflexivity|]. rewrite IH. apply Permutation_swap.
Qed.

Lemma order_by_desc_Permutation l : order_by_desc_created_at l ≡ₚ l.
Proof.
  induction l as [|x l IH]; simpl; [reflexivity|].
  rewrite insert_desc_Permutation. by rewrite IH.
Qed.

Lemma insert_desc_sorted e l :
  StronglySorted (λ a b, l_created_at b <= l_created_at a) l →
  StronglySorted (λ a b, l_created_at b <= l_created_at a) (insert_desc e l).
Proof.
  induction 1 as [|x l Hl IH Hx]; simpl; [repeat constructor|].
  case_bool_decide as Hle.
  - constructor; [by constructor|]. constructor; [assumption|].
    eapply Forall_impl; [exact Hx|]. simpl. intros; lia.
  - constructor; [assumption|].
    rewrite insert_desc_Permutation. constructor; [lia | assumption].
Qed.

Lemma order_by_desc_sorted l :
  StronglySorted (λ a b, l_created_at b <= l_created_at a)
    (order_by_desc_created_at l).
Proof.
  induction l as [|x l IH]; simpl; [constructor|]. by apply insert_desc_sorted.
Qed.

(** X14. For a positive [limit], [get_user_transactions] returns at most
    [limit] rows, all of them rows of that user in the ledger, latest stamp
    first; its first row is the one [get_user_balance] reads the balance from
    (and the balance is 0 when the history is empty); and when the user has no
    more than [limit] rows the history is complete. *)
Theorem get_user_transactions_history db user_id limit :
  0 < limit →
  (Z.of_nat (length (get_user_transactions db user_id limit)) <= limit)
  ∧ Forall (λ e, l_user_id e = user_id ∧ e ∈ credits_ledger db)
      (get_user_transactions db user_id limit)
  ∧ StronglySorted (λ a b, l_created_at b <= l_created_at a)
      (get_user_transactions db user_id limit)
  ∧ get_user_balance db user_id
    = match get_user_transactions db user_id limit with
      | e :: _ => l_balance_after e
      | [] => 0
      end
  ∧ (Z.of_nat (length (filter_user_id user_id (credits_ledger db))) <= limit →
     get_user_transactions db user_id limit
     ≡ₚ filter_user_id user_id (credits_ledger db)).
Proof.
  intros Hlimit. unfold get_user_transactions, sql_limit, get_user_balance.
  set (rows := order_by_desc_created_at (filter_user_id user_id (credits_ledger db))).
  split_and!.
  - rewrite length_take. lia.
  - apply Forall_take. apply Forall_forall. intros e He.
    subst rows. rewrite order_by_desc_Permutation in He.
    by apply list_elem_of_filter in He.
  - pose proof (order_by_desc_sorted (filter_user_id user_id (credits_ledger db))) as Hs.
    fold rows in Hs. rewrite <- (take_drop (Z.to_nat limit) rows) in Hs.
    by apply StronglySorted_app_1_l in Hs.
  - destruct (Z.to_nat limit) as [|n] eqn:Hn; [lia|].
    destruct rows; reflexivity.
  - intros Hall. rewrite take_ge.
    + apply order_by_desc_Permutation.
    + subst rows. rewrite order_by_desc_Permutation. lia.
Qed.

Lemma get_user_transactions_history_witness :
  (l_balance_after <$> head (get_user_transactions Sample.db_completed Sample.buyer 50))
  = Some (get_user_balance Sample.db_completed Sample.buyer).
Proof.
  destruct (get_user_transactions_history Sample.db_completed Sample.buyer 50)
    as (_ & _ & _ & Hbal & _); [lia|].
  rewrite Hbal. vm_compute. reflexivity.
Defined.

(** ** The balance summary *)

Lemma or_zero_sql_sum l : or_zero (sql_sum l) = foldr Z.add 0 l.
Proof.
  destruct l as [|x l]; [reflexivity|]. unfold sql_sum, or_zero.
  case_bool_decide; congruence.
Qed.

Lemma earned_minus_spent (user_id : UUID) (l : list CreditsLedger) :
  foldr Z.add 0 (l_amount <$> filter (λ e, l_user_id e = user_id ∧ l_amount e > 0) l) >= 0
  ∧ foldr Z.add 0 (l_amount <$> filter (λ e, l_user_id e = user_id ∧ l_amount e < 0) l) <= 0
  ∧ foldr Z.add 0 (l_amount <$> filter (λ e, l_user_id e = user_id ∧ l_amount e > 0) l)
    + foldr Z.add 0 (l_amount <$> filter (λ e, l_user_id e = user_id ∧ l_amount e < 0) l)
    = foldr (λ e acc, l_amount e + acc) 0 (filter_user_id user_id l).
Proof.
  unfold filter_user_id.
  induction l as [|x l (IH1 & IH2 & IH3)]; [simpl; lia|].
  rewrite !filter_cons.
  repeat case_decide; rewrite ?fmap_cons; cbn [foldr];
    first [lia | exfalso; intuition lia].
Qed.

Lemma reachable_ledger_consistent db : reachable db → ledger_consistent db.
Proof.
  induction 1 as [db Hinit | db req _ IH Hclock].
  - intros user_id. unfold get_user_balance, ledger_sum.
    rewrite Hinit. simpl. lia.
  - by apply handle_ledger_consistent.
Qed.

(** X15. In the balance summary, [total_earned] and [total_spent] are
    non-negative and their difference is the sum of the user's amounts; the
    recent transactions are the ten latest rows of the history.  In every
    reachable store the difference is the current balance shown next to
    them. *)
Theorem credits_balance_summary db current_user :
  0 <= total_earned (get_my_credits_balance db current_user)
  ∧ 0 <= total_spent (get_my_credits_balance db current_user)
  ∧ total_earned (get_my_credits_balance db current_user)
    - total_spent (get_my_credits_balance db current_user)
    = ledger_sum db current_user
  ∧ recent_transactions (get_my_credits_balance db current_user)
    = get_user_transactions db current_user 10
  ∧ (reachable db →
     current_balance (get_my_credits_balance db current_user)
     = total_earned (get_my_credits_balance db current_user)
       - total_spent (get_my_credits_balance db current_user)).
Proof.
  unfold get_my_credits_balance. simpl. rewrite !or_zero_sql_sum.
  destruct (earned_minus_spent current_user (credits_ledger db)) as (Hpos & Hneg & Hsum).
  fold (ledger_sum db current_user) in Hsum.
  split_and!; [lia | lia | lia | reflexivity |].
  intros Hreach. apply reachable_ledger_consistent in Hreach.
  destruct (Hreach current_user) as [-> _]. lia.
Qed.

Lemma credits_balance_summary_witness :
  current_balance (get_my_credits_balance Sample.db_completed Sample.buyer) = 50
  ∧ total_earned (get_my_credits_balance Sample.db_completed Sample.buyer) = 100
  ∧ total_spent (get_my_credits_balance Sample.db_completed Sample.buyer) = 50.
Proof.
  destruct (credits_balance_summary Sample.db_completed Sample.buyer)
    as (_ & _ & _ & _ & Hcur).
  split_and!; [|vm_compute; reflexivity|vm_compute; reflexivity].
  rewrite Hcur; [vm_compute; reflexivity|].
  unfold Sample.db_completed, Sample.db_in_progress, Sample.db_accepted,
    Sample.db_pending, Sample.db0.
  repeat (apply reachable_handle; [|
    first [ exact I
          | split; [apply later_than_ledger_check; vm_compute; reflexivity | lia]
          | apply later_than_ledger_check; vm_compute; reflexivity ] ]).
  apply reachable_initial. reflexivity.
Defined.

(** ** Soft deletion of an exchange *)

Lemma run_crud_exchange_soft_delete db id utcnow :
  run (crud_exchange_soft_delete id utcnow) db =
  match crud_exchange_get db id with
  | Some ex =>
      (Ok (Some (ex_with_deleted_at (Some utcnow) ex)),
       set_exchanges (<[id := ex_with_deleted_at (Some utcnow) ex]>) db)
  | None => (Ok None, db)
  end.
Proof.
  unfold crud_exchange_soft_delete, run.
  unfold mbind at 1, M_bind at 1, query at 1. simpl.
  destruct (crud_exchange_get db id); reflexivity.
Qed.

Lemma run_crud_exchange_restore db id :
  run (crud_exchange_restore id) db =
  match exchanges db !! id with
  | Some obj =>
      if bool_decide (e_deleted_at obj ≠ None)
      then (Ok (Some (ex_with_deleted_at None obj)),
            set_exchanges (<[id := ex_with_deleted_at None obj]>) db)
      else (Ok (Some obj), db)
  | None => (Ok None, db)
  end.
Proof.
  unfold crud_exchange_restore, run.
  unfold mbind at 1, M_bind at 1, query at 1. simpl.
  destruct (exchanges db !! id) as [obj|]; [|reflexivity].
  case_bool_decide; reflexivity.
Qed.

(** X16. Soft-deleting an exchange hides it from the core: afterwards the
    lookup finds nothing, so every accept, confirm or cancel on it is answered
    with 404 and every request leaves the store as it is; restoring it gives
    back exactly the store from before the deletion. *)
Theorem soft_delete_hides_and_restore_undoes db id utcnow ex :
  crud_exchange_get db id = Some ex →
  crud_exchange_get (run (crud_exchange_soft_delete id utcnow) db).2 id = None
  ∧ (∀ req, target req = Some id →
            handle req (run (crud_exchange_soft_delete id utcnow) db).2
            = (run (crud_exchange_soft_delete id utcnow) db).2)
  ∧ (∀ current_user,
       error_of (AcceptExchange id current_user)
         (run (crud_exchange_soft_delete id utcnow) db).2
       = Some (HTTPException 404 "Intercambio no encontrado"))
  ∧ (run (crud_exchange_restore id)
       (run (crud_exchange_soft_delete id utcnow) db).2).2 = db.
Proof.
  intros Hget. rewrite run_crud_exchange_soft_delete, Hget. simpl.
  apply crud_exchange_get_Some in Hget as [Hrow Hlive].
  set (db1 := set_exchanges (<[id := ex_with_deleted_at (Some utcnow) ex]>) db).
  assert (exchanges db1 !! id = Some (ex_with_deleted_at (Some utcnow) ex)) as Hrow1.
  { subst db1. simpl. apply lookup_insert_eq. }
  assert (crud_exchange_get db1 id = None) as Hget1.
  { unfold crud_exchange_get. rewrite Hrow1. reflexivity. }
  split_and!.
  - exact Hget1.
  - intros req Htarget. destruct req; simpl in Htarget; try discriminate;
      injection Htarget as ->; simpl.
    + rewrite run_create_exchange, Hrow1. repeat case_match; reflexivity.
    + rewrite run_accept_exchange, Hget1. reflexivity.
    + rewrite run_confirm_exchange, Hget1. reflexivity.
    + rewrite run_cancel_exchange, Hget1. reflexivity.
  - intros current_user. simpl. rewrite run_accept_exchange, Hget1. reflexivity.
  - rewrite run_crud_exchange_restore, Hrow1. simpl.
    subst db1. unfold set_exchanges at 1. simpl. rewrite insert_insert_eq.
    replace (ex_with_deleted_at None (ex_with_deleted_at (Some utcnow) ex)) with ex
      by (destruct ex; simpl in *; by subst).
    rewrite insert_id by assumption. by destruct db.
Qed.

Lemma soft_delete_hides_and_restore_undoes_witness :
  (run (crud_exchange_restore Sample.the_exchange)
     (run (crud_exchange_soft_delete Sample.the_exchange 99) Sample.db_in_progress).2).2
  = Sample.db_in_progress.
Proof.
  apply (soft_delete_hides_and_restore_undoes Sample.db_in_progress Sample.the_exchange
           99 Sample.ex_in_progress).
  vm_compute. reflexivity.
Defined.

(** ** [confirm_by_user] *)

(** X17. [confirm_by_user] writes the exchange row and nothing else: whatever
    the status of the exchange and whoever the user, the ledger, the events,
    the offers and the users are as before, even when the call marks the
    exchange completed; the row it stores has [completed] status and a
    [completed_at] stamp whenever both flags are set, and a user who is neither
    buyer nor seller sets no flag. *)
Theorem confirm_by_user_moves_no_credits db ex user_id utcnow :
  ∃ ex',
    run (confirm_by_user ex user_id utcnow) db
    = (Ok ex', set_exchanges (<[e_id ex := ex']>) db)
    ∧ credits_ledger (run (confirm_by_user ex user_id utcnow) db).2 = credits_ledger db
    ∧ exchange_events (run (confirm_by_user ex user_id utcnow) db).2 = exchange_events db
    ∧ offers (run (confirm_by_user ex user_id utcnow) db).2 = offers db
    ∧ users (run (confirm_by_user ex user_id utcnow) db).2 = users db
    ∧ (is_confirmed ex' = true →
       e_status ex' = completed ∧ e_completed_at ex' = Some utcnow)
    ∧ (is_confirmed ex' = false → e_status ex' = e_status ex)
    ∧ (e_buyer_id ex ≠ user_id → e_seller_id ex ≠ user_id →
       e_buyer_confirmed ex' = e_buyer_confirmed ex
       ∧ e_seller_confirmed ex' = e_seller_confirmed ex).
Proof.
  unfold confirm_by_user. unfold_M. unfold is_confirmed.
  destruct ex as [? ? b s ? st ? bc sc ? ? ? ? ? ?]. simpl.
  repeat (case_bool_decide; simpl); destruct bc, sc; simpl;
    eexists; (split; [reflexivity|]); simpl;
    split_and!; try reflexivity; try done; intros; try contradiction; by split.
Qed.

Lemma confirm_by_user_moves_no_credits_witness :
  ∃ ex',
    (run (confirm_by_user Sample.ex_in_progress Sample.seller 20) Sample.db_in_progress).1
    = Ok ex'
    ∧ e_status ex' = completed
    ∧ get_user_balance
        (run (confirm_by_user Sample.ex_in_progress Sample.seller 20)
           Sample.db_in_progress).2 Sample.buyer = 100.
Proof.
  destruct (confirm_by_user_moves_no_credits Sample.db_in_progress Sample.ex_in_progress
              Sample.seller 20) as (ex' & Hrun & Hledger & _ & _ & _ & Hdone & _).
  exists ex'. split_and!.
  - rewrite Hrun. reflexivity.
  - apply Hdone. rewrite Hrun in Hledger. clear Hdone Hledger.
    vm_compute in Hrun. injection Hrun as <-. reflexivity.
  - rewrite (get_user_balance_ext Sample.db_in_progress) by exact Hledger.
    vm_compute. reflexivity.
Defined.

(** ** The reward endpoints *)

Lemma run_claim_reward_endpoint db reward_id current_user now :
  run (claim_reward_endpoint reward_id current_user now) db =
  match run (claim_reward current_user reward_id now) db with
  | (Ok claim, db') => (Ok (claim, crud_reward_get db' reward_id), db')
  | (Raise (ValueError message), db') => (Raise (HTTPException 400 message), db')
  | (Raise e, db') => (Raise e, db')
  end.
Proof.
  unfold claim_reward_endpoint, except_ValueError, run.
  unfold mbind at 1, M_bind at 1.
  destruct (claim_reward current_user reward_id now (mkSession db db))
    as [[claim|e] s] eqn:Hclaim.
  - assert (committed s = working s) as Hcommitted.
    { revert Hclaim. unfold claim_reward. unfold_M. simpl.
      repeat (case_match; simpl; try discriminate); intros [= <- <-]; reflexivity. }
    unfold_M. simpl. by rewrite Hcommitted.
  - destruct e; reflexivity.
Qed.

(** X18. The claim endpoint answers every refusal of [claim_reward] with an
    HTTP 400 carrying its message and leaves the store unchanged; when the
    claim succeeds, the reward shown in the response is the catalogue row
    after the claim, with one unit less in stock than before. *)
Theorem claim_reward_endpoint_response db reward_id current_user now :
  match run (claim_reward_endpoint reward_id current_user now) db with
  | (Raise e, db') =>
      db' = db
      ∧ ∃ message,
          e = HTTPException 400 message
          ∧ (run (claim_reward current_user reward_id now) db).1
            = Raise (ValueError message)
  | (Ok (claim, reward), db') =>
      ∃ r,
        crud_reward_get db reward_id = Some r
        ∧ reward = Some (decrement_stock r)
        ∧ (r_stock_quantity <$> reward) = Some (r_stock_quantity r - 1)
        ∧ c_status claim = cl_pending
        ∧ c_user_id claim = current_user
        ∧ c_credits_spent claim = r_credits_cost r
        ∧ db' = (run (claim_reward current_user reward_id now) db).2
  end.
Proof.
  rewrite run_claim_reward_endpoint, run_claim_reward. cbv zeta.
  destruct (crud_reward_get db reward_id) as [r|] eqn:Hget;
    [|split; [reflexivity | by eexists]].
  destruct (negb _); [split; [reflexivity | by eexists]|].
  repeat (case_bool_decide; [split; [reflexivity | by eexists]|]).
  exists r. split_and!; try reflexivity.
  - unfold crud_reward_get. simpl. rewrite lookup_insert_eq. simpl.
    unfold crud_reward_get in Hget.
    destruct (rewards_catalog db !! reward_id) as [r0|]; [|discriminate].
    case_bool_decide as Hlive; [|discriminate]. injection Hget as ->.
    by rewrite bool_decide_eq_true_2.
  - unfold crud_reward_get. simpl. rewrite lookup_insert_eq. simpl.
    unfold crud_reward_get in Hget.
    destruct (rewards_catalog db !! reward_id) as [r0|]; [|discriminate].
    case_bool_decide as Hlive; [|discriminate]. injection Hget as ->.
    by rewrite bool_decide_eq_true_2.
Qed.

(** ** Reading the balance back *)

(** X19. What [add_credits_transaction] records is what [get_user_balance]
    reads back: after a successful call made under a database clock later
    than every stamp of the ledger, the user's balance is the old balance plus
    the amount, and every other user's balance is unchanged. *)
Theorem add_credits_transaction_read_back
    db user_id ttype amount ref desc now entry db' :
  later_than_ledger now db →
  run (add_credits_transaction user_id ttype amount ref desc now) db = (Ok entry, db') →
  get_user_balance db' user_id = get_user_balance db user_id + amount
  ∧ get_user_balance db' user_id = l_balance_after entry
  ∧ 0 <= get_user_balance db' user_id
  ∧ ∀ other, other ≠ user_id → get_user_balance db' other = get_user_balance db other.
Proof.
  intros Hlater. rewrite run_add_credits_transaction. cbv zeta.
  case_bool_decide as Hneg; [discriminate|]. intros [= <- <-].
  match goal with
  | |- context [set_credits_ledger (λ l, l ++ [?e]) db] =>
      pose proof (λ u, get_user_balance_snoc_later db
                         (set_credits_ledger (λ l, l ++ [e]) db) e u eq_refl Hlater)
        as Hbal
  end.
  simpl in Hbal. split_and!.
  - rewrite Hbal, bool_decide_eq_true_2 by reflexivity. reflexivity.
  - rewrite Hbal, bool_decide_eq_true_2 by reflexivity. reflexivity.
  - rewrite Hbal, bool_decide_eq_true_2 by reflexivity. lia.
  - intros other Hother. rewrite Hbal, bool_decide_eq_false_2 by congruence. reflexivity.
Qed.

Lemma add_credits_transaction_read_back_witness :
  get_user_balance Sample.db_in_progress_poor Sample.buyer = 30.
Proof.
  destruct (add_credits_transaction_read_back Sample.db_in_progress Sample.buyer
              admin_adjustment (-70) None None 15
              (mkCreditsLedger Sample.buyer admin_adjustment (-70) 30 None None 15)
              Sample.db_in_progress_poor) as (H & _).
  - apply later_than_ledger_check. vm_compute. reflexivity.
  - vm_compute. reflexivity.
  - rewrite H. vm_compute. reflexivity.
Defined.

(** X20. A successful [claim_reward] under a database clock later than every
    stamp of the ledger lowers the user's balance by exactly the cost recorded
    on the claim, keeps it non-negative, and moves nobody else's balance. *)
Theorem claim_reward_charges_the_cost db user_id reward_id now claim db' :
  later_than_ledger now db →
  run (claim_reward user_id reward_id now) db = (Ok claim, db') →
  get_user_balance db' user_id = get_user_balance db user_id - c_credits_spent claim
  ∧ 0 <= get_user_balance db' user_id
  ∧ ∀ other, other ≠ user_id → get_user_balance db' other = get_user_balance db other.
Proof.
  intros Hlater. rewrite run_claim_reward. cbv zeta.
  destruct (crud_reward_get db reward_id) as [reward|]; [|discriminate].
  destruct (negb _); [discriminate|].
  repeat (case_bool_decide; [discriminate|]). intros [= <- <-].
  match goal with
  | |- context [set_credits_ledger (λ l, l ++ [?e]) ?db0] =>
      pose proof (λ u, get_user_balance_snoc_later db
                         (set_credits_ledger (λ l, l ++ [e]) db0) e u eq_refl Hlater)
        as Hbal
  end.
  simpl in Hbal. simpl. split_and!.
  - rewrite Hbal, bool_decide_eq_true_2 by reflexivity. reflexivity.
  - rewrite Hbal, bool_decide_eq_true_2 by reflexivity. lia.
  - intros other Hother. rewrite Hbal, bool_decide_eq_false_2 by congruence. reflexivity.
Qed.

Lemma claim_reward_charges_the_cost_witness :
  get_user_balance Sample.db_claimed Sample.buyer = 70.
Proof.
  destruct (claim_reward_charges_the_cost Sample.db0 Sample.buyer 1 5
              (mkRewardClaim 1 1 Sample.buyer 30 cl_pending None None None)
              Sample.db_claimed) as (H & _).
  - apply later_than_ledger_check. vm_compute. reflexivity.
  - vm_compute. reflexivity.
  - rewrite H. vm_compute. reflexivity.
Defined.

Lemma update_claim_row_other claim l :
  filter (λ c, c_id c ≠ c_id claim) (update_claim_row claim l)
  = filter (λ c, c_id c ≠ c_id claim) l.
Proof.
  unfold update_claim_row. induction l as [|a l IH]; [reflexivity|].
  rewrite fmap_cons, !filter_cons. case_bool_decide as Hsame; repeat case_decide;
    first [exact IH | by rewrite IH | exfalso; congruence].
Qed.

Lemma update_claim_row_head claim l :
  head (filter (λ c, c_id c = c_id claim) l) ≠ None →
  head (filter (λ c, c_id c = c_id claim) (update_claim_row claim l)) = Some claim.
Proof.
  unfold update_claim_row. induction l as [|a l IH]; [done|].
  rewrite fmap_cons, !filter_cons. case_bool_decide as Hsame; repeat case_decide;
    first [reflexivity | exact IH | exfalso; congruence].
Qed.

Lemma run_update_claim_status_admin db claim_id status notes utcnow :
  run (update_claim_status_admin claim_id status notes utcnow) db =
  match head (filter (λ c, c_id c = claim_id) (reward_claims db)) with
  | None => (Raise (HTTPException 404 "Reclamación no encontrada"), db)
  | Some claim =>
    let claim' :=
      mkRewardClaim (c_id claim) (c_reward_id claim) (c_user_id claim)
        (c_credits_spent claim) status
        (if bool_decide (status = cl_approved) then Some utcnow else c_approved_at claim)
        (if bool_decide (status = cl_delivered) then Some utcnow else c_delivered_at claim)
        (if truthy notes then notes else c_notes claim) in
    (Ok (claim', crud_reward_get db (c_reward_id claim)),
     set_reward_claims (update_claim_row claim') db)
  end.
Proof.
  unfold update_claim_status_admin, update_claim_status, run. unfold_M. simpl.
  destruct (head _) as [claim|]; [|reflexivity].
  destruct status, (truthy notes); reflexivity.
Qed.

(** X21. The administration endpoint answers 404 and changes nothing when no
    claim has the given id.  Otherwise it succeeds, the claim it returns is the
    one a lookup by that id finds afterwards, the reward in the response is the
    catalogue row of the claim's reward, the table keeps its length, and every
    claim with another id is untouched. *)
Theorem update_claim_status_admin_response db claim_id status notes utcnow :
  match head (filter (λ c, c_id c = claim_id) (reward_claims db)) with
  | None =>
      run (update_claim_status_admin claim_id status notes utcnow) db
      = (Raise (HTTPException 404 "Reclamación no encontrada"), db)
  | Some claim =>
      ∃ claim' db',
        run (update_claim_status_admin claim_id status notes utcnow) db
        = (Ok (claim', crud_reward_get db (c_reward_id claim)), db')
        ∧ c_status claim' = status
        ∧ head (filter (λ c, c_id c = claim_id) (reward_claims db')) = Some claim'
        ∧ length (reward_claims db') = length (reward_claims db)
        ∧ filter (λ c, c_id c ≠ claim_id) (reward_claims db')
          = filter (λ c, c_id c ≠ claim_id) (reward_claims db)
  end.
Proof.
  rewrite run_update_claim_status_admin.
  destruct (head _) as [claim|] eqn:Hhead; [|reflexivity].
  assert (c_id claim = claim_id) as Hid.
  { apply head_Some_elem_of, list_elem_of_filter in Hhead. tauto. }
  cbv zeta. eexists _, _. split; [reflexivity|]. simpl. subst claim_id.
  split_and!.
  - reflexivity.
  - apply (update_claim_row_head (mkRewardClaim _ _ _ _ _ _ _ _)).
    change (head (filter (λ c, c_id c = c_id claim) (reward_claims db)) ≠ None).
    by rewrite Hhead.
  - unfold update_claim_row. apply length_fmap.
  - apply (update_claim_row_other (mkRewardClaim _ _ _ _ _ _ _ _)).
Qed.

(** ** Counting completed exchanges *)



(** ** From proposal to completion *)

Lemma crud_exchange_get_insert db id ex f g :
  e_deleted_at ex = None →
  crud_exchange_get
    (set_exchange_events f (set_exchanges (<[id := ex]>) (set_offers g db))) id
  = Some ex
  ∧ crud_exchange_get
      (set_exchange_events f (set_exchanges (<[id := ex]>) db)) id = Some ex
  ∧ crud_exchange_get
      (set_offers g (set_exchange_events f (set_exchanges (<[id := ex]>) db))) id
    = Some ex.
Proof.
  intros Hlive. unfold crud_exchange_get. simpl. rewrite lookup_insert_eq.
  rewrite bool_decide_eq_true_2 by assumption. by split_and!.
Qed.




(** ** Repeating a call *)

Lemma crud_exchange_get_ext db db' id :
  exchanges db' = exchanges db →
  crud_exchange_get db' id = crud_exchange_get db id.
Proof. unfold crud_exchange_get. by intros ->. Qed.

(** X24. Accepting and confirming cannot be repeated.  After a successful
    accept, accepting again is refused with HTTP 400; after a confirmation that
    left the exchange in progress, the same user confirming again is refused
    with "Ya has confirmado este intercambio".  Neither refused call changes
    the store. *)
Theorem accept_and_confirm_are_not_repeatable db exchange_id current_user :
  (∀ msg db1,
     run (accept_exchange exchange_id current_user) db = (Ok msg, db1) →
     run (accept_exchange exchange_id current_user) db1
     = (Raise (HTTPException 400 (no_se_puede "aceptar" accepted)), db1))
  ∧ (∀ confirm_data utcnow txn_now txn_now' db1,
       run (confirm_exchange exchange_id confirm_data current_user
              utcnow txn_now txn_now') db
       = (Ok "Confirmación registrada", db1) →
       ∀ confirm_data' utcnow' txn_now2 txn_now2',
         run (confirm_exchange exchange_id confirm_data' current_user
                utcnow' txn_now2 txn_now2') db1
         = (Raise (HTTPException 400 "Ya has confirmado este intercambio"), db1)).
Proof.
  split.
  - intros msg db1. rewrite run_accept_exchange.
    destruct (crud_exchange_get db exchange_id) as [ex|] eqn:Hget; [|discriminate].
    case_bool_decide as Hseller; [discriminate|].
    case_bool_decide as Hst; [discriminate|].
    intros [= <- <-].
    apply crud_exchange_get_Some in Hget as [_ Hlive].
    rewrite run_accept_exchange.
    destruct (crud_exchange_get_insert db exchange_id (ex_with_status accepted ex)
                (λ l, l ++ [mkExchangeEvent exchange_id ev_accepted current_user None])
                id Hlive) as (_ & -> & _).
    simpl. rewrite bool_decide_eq_false_2 by (intros H; by apply H). reflexivity.
  - intros confirm_data utcnow txn_now txn_now' db1.
    rewrite run_confirm_exchange. cbv zeta.
    destruct (crud_exchange_get db exchange_id) as [ex|] eqn:Hget; [|discriminate].
    destruct (_ && _) eqn:Hpart; [discriminate|].
    destruct (negb _) eqn:Hst; [discriminate|].
    destruct (already_confirmed ex current_user) eqn:Hnot; [discriminate|].
    destruct (completes ex current_user) eqn:Hcompl.
    { repeat (case_bool_decide; try discriminate). }
    intros [= <-] confirm_data' utcnow' txn_now2 txn_now2'.
    apply crud_exchange_get_Some in Hget as [_ Hlive].
    assert (e_deleted_at (confirmed_by current_user utcnow ex) = None) as Hlive'.
    { unfold confirmed_by. repeat (case_bool_decide; simpl); assumption. }
    rewrite run_confirm_exchange.
    destruct (crud_exchange_get_insert db exchange_id
                (confirmed_by current_user utcnow ex)
                (λ l, l ++ [check_in_event exchange_id confirm_data current_user ex])
                id Hlive') as (_ & -> & _).
    apply confirmable_status in Hst.
    assert (e_buyer_id (confirmed_by current_user utcnow ex) = e_buyer_id ex
            ∧ e_seller_id (confirmed_by current_user utcnow ex) = e_seller_id ex
            ∧ e_status (confirmed_by current_user utcnow ex) = in_progress
            ∧ already_confirmed (confirmed_by current_user utcnow ex) current_user = true)
      as (-> & -> & -> & ->).
    { unfold confirmed_by, already_confirmed.
      destruct Hst as [Hst|Hst];
        repeat (case_bool_decide; simpl in *); rewrite ?Hst in *;
        split_and!; try reflexivity; try congruence. }
    rewrite Hpart. reflexivity.
Qed.

Lemma accept_and_confirm_are_not_repeatable_witness :
  run (confirm_exchange Sample.the_exchange None Sample.buyer 30 31 32)
      Sample.db_in_progress
  = (Raise (HTTPException 400 "Ya has confirmado este intercambio"),
     Sample.db_in_progress).
Proof.
  destruct (accept_and_confirm_are_not_repeatable Sample.db_accepted Sample.the_exchange
              Sample.buyer) as [_ H].
  apply (H None 10 11 12 Sample.db_in_progress).
  vm_compute. reflexivity.
Defined.



(** ** The catalogue listing *)

Lemma by_credits_cost_total : Total by_credits_cost.
Proof. intros a b. unfold by_credits_cost. lia. Qed.

Lemma by_credits_cost_trans : Transitive by_credits_cost.
Proof. intros a b c. unfold by_credits_cost. lia. Qed.

(** X26. Every row listed by [get_active_rewards] is a row of the catalogue
    that is active with a positive stock; the listing is ordered by cost and
    has at most [limit] rows.  A listed reward can be claimed by every existing
    user whose balance covers its cost, provided the reward is not
    soft-deleted; a soft-deleted reward that is still active and in stock is
    listed all the same, and claiming it is refused with "Recompensa no
    disponible". *)
Theorem get_active_rewards_listing db limit :
  0 <= limit →
  Z.of_nat (length (get_active_rewards db limit)) <= limit
  ∧ StronglySorted by_credits_cost (get_active_rewards db limit)
  ∧ ∀ id r,
      (id, r) ∈ get_active_rewards db limit →
      rewards_catalog db !! id = Some r
      ∧ r_is_active r = true
      ∧ 0 < r_stock_quantity r
      ∧ (∀ user_id now,
           r_deleted_at r = None →
           users db !! user_id ≠ None →
           r_credits_cost r <= get_user_balance db user_id →
           error_of (ClaimReward user_id id now) db = None)
      ∧ (∀ user_id now,
           r_deleted_at r ≠ None →
           error_of (ClaimReward user_id id now) db
           = Some (ValueError "Recompensa no disponible")).
Proof.
  intros Hlimit. unfold get_active_rewards, sql_limit.
  set (rows := merge_sort by_credits_cost _).
  split_and!.
  - rewrite length_take. lia.
  - assert (StronglySorted by_credits_cost rows) as Hs.
    { apply (@Sorted_StronglySorted _ _ by_credits_cost_trans).
      apply (@Sorted_merge_sort _ _ _ by_credits_cost_total). }
    rewrite <- (take_drop (Z.to_nat limit) rows) in Hs.
    by apply StronglySorted_app_1_l in Hs.
  - intros id r Hin. apply subseteq_take in Hin.
    subst rows. rewrite merge_sort_Permutation in Hin.
    apply list_elem_of_filter in Hin as [[Hactive Hstock] Hin]. simpl in *.
    apply elem_of_map_to_list in Hin.
    split_and!; [assumption | assumption | lia | |].
    + intros user_id now Hlive Huser Hbal. simpl.
      rewrite run_claim_reward. unfold crud_reward_get. rewrite Hin.
      rewrite bool_decide_eq_true_2 by assumption. cbv zeta.
      rewrite Hactive. simpl.
      rewrite bool_decide_eq_false_2 by lia.
      rewrite bool_decide_eq_false_2 by assumption.
      rewrite bool_decide_eq_false_2 by lia. reflexivity.
    + intros user_id now Hdel. simpl.
      rewrite run_claim_reward. unfold crud_reward_get. rewrite Hin.
      rewrite bool_decide_eq_false_2 by assumption. reflexivity.
Qed.

Lemma get_active_rewards_listing_witness :
  get_active_rewards Sample.db0 30 = [(1, mkRewardsCatalog "Taza" 30 1 true None)]
  ∧ error_of (ClaimReward Sample.buyer 1 5) Sample.db0 = None.
Proof.
  assert (get_active_rewards Sample.db0 30
          = [(1, mkRewardsCatalog "Taza" 30 1 true None)]) as Hlist
    by (vm_compute; reflexivity).
  split; [exact Hlist|].
  destruct (get_active_rewards_listing Sample.db0 30) as (_ & _ & H); [lia|].
  destruct (H 1 (mkRewardsCatalog "Taza" 30 1 true None)) as (_ & _ & _ & Hclaim & _).
  - rewrite Hlist. left.
  - apply Hclaim; [reflexivity | vm_compute; discriminate | vm_compute; discriminate].
Defined.
